(** * mqtt-receipt-printer: the status protocol and the run loop

    A shallow embedding of [mqtt-receipt-print.py].  Python statements are
    written in a small monad that threads the state of the [ReceiptPrinter]
    object, records every externally visible action in a chronological
    trace, and has the three ways a Python block can end: falling through,
    a [return], and a propagating exception.  The printer device, the MQTT
    broker, the wall clock and the library functions [json.loads],
    [base64.b64decode] and [str] are an environment the program consults. *)

From Stdlib Require Import List String Ascii NArith ZArith Bool Lia.
From Stdlib Require Import Strings.Byte.
From Stdlib Require Import DecimalString.
Import ListNotations.

Set Warnings "-register-all".

Local Open Scope string_scope.
Local Open Scope list_scope.

(** ** Python data *)

(** [bytes]: iterating over it yields the integers [Byte.to_N b]. *)
Definition bytes := list byte.

(** The dictionary [{"status": text, "ok": ok}]; the record constructor is
    the function [status_message]. *)
Record Status := status_message { status : string; ok : bool }.

(** Dictionary equality [==] on two such dictionaries. *)
Definition Status_eqb (a b : Status) : bool :=
  String.eqb (status a) (status b) && Bool.eqb (ok a) (ok b).

(** Values produced by [json.loads].  A [dict] is kept as the list of its
    items (keys distinct, as the parser leaves them); a float is kept by
    its [repr]. *)
Inductive pyval :=
| PyNone
| PyBool (b : bool)
| PyInt (z : Z)
| PyFloat (repr : string)
| PyStr (s : string)
| PyList (l : list pyval)
| PyDict (items : list (string * pyval)).

(** Exceptions, with the part of the class hierarchy the handlers test. *)
Inductive exn :=
| IOError (repr : string)
| ConnectionRefusedError
| OtherOSError (repr : string)
| JSONDecodeError
| TypeError (repr : string)
| UnboundLocalError (var : string)
| OtherException (repr : string)
| SystemExit (code : N).

(** [except IOError]: [IOError] is [OSError], of which
    [ConnectionRefusedError] is a subclass. *)
Definition is_IOError (e : exn) : bool :=
  match e with
  | IOError _ | ConnectionRefusedError | OtherOSError _ => true
  | _ => false
  end.

Definition is_ConnectionRefusedError (e : exn) : bool :=
  match e with ConnectionRefusedError => true | _ => false end.

Definition is_JSONDecodeError (e : exn) : bool :=
  match e with JSONDecodeError => true | _ => false end.

(** [except Exception]: everything but [SystemExit]. *)
Definition is_Exception (e : exn) : bool :=
  match e with SystemExit _ => false | _ => true end.

Definition repr_exn (e : exn) : string :=
  match e with
  | IOError r | OtherOSError r | TypeError r | OtherException r => r
  | ConnectionRefusedError => "ConnectionRefusedError()"
  | JSONDecodeError => "JSONDecodeError()"
  | UnboundLocalError v => "UnboundLocalError(" ++ v ++ ")"
  | SystemExit c => "SystemExit(" ++ NilZero.string_of_uint (N.to_uint c) ++ ")"
  end.

(** [repr] of an [Optional[int]]. *)
Definition repr_int (n : N) : string := NilZero.string_of_uint (N.to_uint n).

Definition repr_optional_int (v : option N) : string :=
  match v with
  | None => "None"
  | Some n => repr_int n
  end.

(** Truth value of an integer in a condition. *)
Definition truthy (n : N) : bool := negb (N.eqb n 0).

(** ** The outside world *)

Inductive file_mode := mode_a_plus_b | mode_ab.

Inductive io_op := op_open | op_read | op_write | op_close.

(** What the device file answers to one operation: success (with the
    bytes available, for a read) or an I/O error. *)
Inductive io_reply :=
| io_ok (data : bytes)
| io_error (repr : string).

Inductive reconnect_reply :=
| reconnect_ok
| reconnect_refused
| reconnect_raises (e : exn).

(** Return codes of [mqttc.loop]. *)
Inductive loop_rc :=
| MQTT_ERR_SUCCESS
| MQTT_ERR_CONN_LOST
| MQTT_ERR_OTHER (code : N).

Definition loop_rc_eqb (a b : loop_rc) : bool :=
  match a, b with
  | MQTT_ERR_SUCCESS, MQTT_ERR_SUCCESS => true
  | MQTT_ERR_CONN_LOST, MQTT_ERR_CONN_LOST => true
  | MQTT_ERR_OTHER x, MQTT_ERR_OTHER y => N.eqb x y
  | _, _ => false
  end.

(** What [mqttc.loop] delivers to the callbacks while it runs. *)
Inductive inbound :=
| in_connack (rc : N)
| in_print (payload : bytes).

Inductive loads_result :=
| loads_value (v : pyval)
| loads_raises (e : exn).

(** The argument of [json.dumps] in the two [publish] calls. *)
Inductive payload :=
| status_payload (s : Status)
| printed_payload (jobid message : string) (finished success : bool).

(** Externally visible actions, in the order they happen.  Durations are
    in milliseconds. *)
Inductive event :=
| EvOpen (m : file_mode)
| EvRead (size : nat) (data : bytes)
| EvWrite (data : bytes)
| EvClose
| EvIOError (op : io_op) (repr : string)
| EvSleep (ms : N)
| EvNotify (msg : string)
| EvPublish (topic : string) (p : payload) (retain : bool)
| EvSubscribe (topic : string) (qos : N)
| EvReconnect (r : reconnect_reply)
| EvLoop (timeout : Z).

Record Env := {
  dev : nat -> io_reply;            (* reply to the k-th file operation *)
  broker : nat -> reconnect_reply;  (* outcome of the k-th [reconnect] *)
  network : nat -> list inbound * loop_rc;  (* k-th call of [mqttc.loop] *)
  clock : nat -> Z;                 (* k-th reading of [time.time], in ms *)
  json_loads : bytes -> loads_result;
  b64decode : pyval -> string + bytes;  (* [inl]: repr of the exception *)
  py_str : pyval -> string
}.

(** The fields of [self] that change, and how far the environment has
    been consumed. *)
Record State := {
  connected : bool;
  current_status : Status;
  print_queue : list (string * bytes);
  dev_ops : nat;
  reconnects : nat;
  loops : nat;
  clock_reads : nat
}.

(** The configuration [__init__] stores: the three topics built from the
    prefix, and the polling interval in milliseconds. *)
Record Config := {
  status_topic : string;
  print_topic : string;
  printed_topic : string;
  status_check_interval : Z
}.

(** Looking a key up in a [dict]. *)
Definition dict_get (items : list (string * pyval)) (key : string)
    : option pyval :=
  option_map snd (find (fun kv => String.eqb (fst kv) key) items).

(** [key in v]. *)
Definition py_contains (key : string) (v : pyval) : exn + bool :=
  match v with
  | PyDict items =>
      inr (match dict_get items key with Some _ => true | None => false end)
  | PyList l =>
      inr (existsb (fun x => match x with
                             | PyStr s => String.eqb s key
                             | _ => false
                             end) l)
  | PyStr s =>
      inr (match String.index 0 key s with Some _ => true | None => false end)
  | _ => inl (TypeError "TypeError(argument is not iterable)")
  end.

(** [v[key]] with a string key. *)
Definition py_getitem (v : pyval) (key : string) : exn + pyval :=
  match v with
  | PyDict items =>
      match dict_get items key with
      | Some x => inr x
      | None => inl (OtherException ("KeyError(" ++ key ++ ")"))
      end
  | PyList _ => inl (TypeError "TypeError(list indices must be integers)")
  | PyStr _ => inl (TypeError "TypeError(string indices must be integers)")
  | _ => inl (TypeError "TypeError(object is not subscriptable)")
  end.

(** ** Statements *)

Inductive outcome (R A : Type) :=
| Normal (a : A)      (* the block ran to its end *)
| Returned (r : R)    (* a [return] was executed *)
| Raised (e : exn)    (* an exception is propagating *)
| OutOfFuel.          (* a loop was cut by the model *)

Arguments Normal {R A} a.
Arguments Returned {R A} r.
Arguments Raised {R A} e.
Arguments OutOfFuel {R A}.

Definition M (R A : Type) : Type := State -> outcome R A * State * list event.

Definition pure {R A} (a : A) : M R A := fun s => (Normal a, s, []).

Definition bind {R A B} (m : M R A) (k : A -> M R B) : M R B := fun s =>
  match m s with
  | (Normal a, s1, t1) => let '(o, s2, t2) := k a s1 in (o, s2, t1 ++ t2)
  | (Returned r, s1, t1) => (Returned r, s1, t1)
  | (Raised e, s1, t1) => (Raised e, s1, t1)
  | (OutOfFuel, s1, t1) => (OutOfFuel, s1, t1)
  end.

Declare Scope py_scope.
Delimit Scope py_scope with py.
Notation "x <- m ;; k" := (bind m (fun x => k))
  (at level 100, m at next level, right associativity) : py_scope.
Notation "m ;; k" := (bind m (fun _ => k))
  (at level 100, right associativity) : py_scope.
Local Open Scope py_scope.

Definition return_ {R A} (r : R) : M R A := fun s => (Returned r, s, []).

Definition raise {R A} (e : exn) : M R A := fun s => (Raised e, s, []).

Definition emit {R} (e : event) : M R unit := fun s => (Normal tt, s, [e]).

Definition get {R} : M R State := fun s => (Normal s, s, []).

Definition put {R} (s' : State) : M R unit := fun _ => (Normal tt, s', []).

(** [try: body / except <class> as e: handler]. *)
Definition try_except {R A} (body : M R A) (catches : exn -> bool)
    (handler : exn -> M R A) : M R A := fun s =>
  match body s with
  | (Raised e, s1, t1) =>
      if catches e
      then let '(o, s2, t2) := handler e s1 in (o, s2, t1 ++ t2)
      else (Raised e, s1, t1)
  | other => other
  end.

(** A call: the callee's [return] becomes the caller's value.  The body of
    a function whose last statement is a [return] never falls through, so
    its fall-through type is empty. *)
Definition call {X R} (body : M R Empty_set) : M X R := fun s =>
  match body s with
  | (Normal a, _, _) => match a with end
  | (Returned r, s1, t1) => (Normal r, s1, t1)
  | (Raised e, s1, t1) => (Raised e, s1, t1)
  | (OutOfFuel, s1, t1) => (OutOfFuel, s1, t1)
  end.

(** A call of a function that may fall off its end (returning [None]). *)
Definition call_proc {X} (body : M unit unit) : M X unit := fun s =>
  match body s with
  | (Normal _, s1, t1) | (Returned _, s1, t1) => (Normal tt, s1, t1)
  | (Raised e, s1, t1) => (Raised e, s1, t1)
  | (OutOfFuel, s1, t1) => (OutOfFuel, s1, t1)
  end.

Definition run_of {R A} (m : M R A) (s : State) : outcome R A := fst (fst (m s)).
Definition state_of {R A} (m : M R A) (s : State) : State := snd (fst (m s)).
Definition trace_of {R A} (m : M R A) (s : State) : list event := snd (m s).

(** ** The program *)

Module ReceiptPrinter.

Definition status_offline := status_message "Offline" false.
Definition status_cover_open := status_message "Cover is open" false.
Definition status_paper_being_fed :=
  status_message "Paper is being fed by the paper feed button" false.
Definition status_oop := status_message "Out of paper" false.
Definition status_error := status_message "Error light is on" false.
Definition status_no_response := status_message "No response from printer" false.
Definition status_not_connected := status_message "Printer not connected" false.
Definition status_ready := status_message "Ready" true.

(** [for b in r: if (b & 0x93) == 0x12: return b] and [return None]. *)
Fixpoint _find_dle_eot_response (r : bytes) : option N :=
  match r with
  | [] => None
  | b :: r' =>
      if N.eqb (N.land (Byte.to_N b) 0x93) 0x12
      then Some (Byte.to_N b)
      else _find_dle_eot_response r'
  end.

(** [__init__]: a prefix that is not empty and does not end with a slash
    gets one, and the three topics are built on it; the polling interval
    is in milliseconds. *)
Definition ends_with_slash (prefix : string) : bool :=
  match String.get (String.length prefix - 1) prefix with
  | Some c => Ascii.eqb c "/"%char
  | None => false
  end.

Definition topic_prefix (prefix : string) : string :=
  if negb (String.eqb prefix "") && negb (ends_with_slash prefix)
  then prefix ++ "/"
  else prefix.

Definition configure (prefix : string) (interval : Z) : Config :=
  {| status_topic := topic_prefix prefix ++ "status";
     print_topic := topic_prefix prefix ++ "print";
     printed_topic := topic_prefix prefix ++ "printed";
     status_check_interval := interval |}.

Section Methods.

Variable env : Env.
Variable cfg : Config.

(** *** The device file *)

Definition next_dev_op (s : State) : State :=
  {| connected := connected s; current_status := current_status s;
     print_queue := print_queue s; dev_ops := S (dev_ops s);
     reconnects := reconnects s; loops := loops s;
     clock_reads := clock_reads s |}.

Definition with_dev_ops (s : State) (k : nat) : State :=
  {| connected := connected s; current_status := current_status s;
     print_queue := print_queue s; dev_ops := k;
     reconnects := reconnects s; loops := loops s;
     clock_reads := clock_reads s |}.

(** [open(self.printer, mode, opener=self._nocreat_opener)].  The
    errors followed are those of the operating system ([OSError], of
    which [IOError] is another name); the configured path is taken to be
    one that [open] accepts. *)
Definition file_open {R} (m : file_mode) : M R unit := fun s =>
  match dev env (dev_ops s) with
  | io_ok _ => (Normal tt, next_dev_op s, [EvOpen m])
  | io_error e => (Raised (IOError e), next_dev_op s, [EvIOError op_open e])
  end.

(** [f.read(size)]: at most [size] of the bytes the device has. *)
Definition file_read {R} (size : nat) : M R bytes := fun s =>
  match dev env (dev_ops s) with
  | io_ok d => (Normal (firstn size d), next_dev_op s, [EvRead size (firstn size d)])
  | io_error e => (Raised (IOError e), next_dev_op s, [EvIOError op_read e])
  end.

(** [f.write(d)]: the call on the file object.  The object may hold the
    bytes until it is closed, an error of the device then showing at the
    close; [dev] answers the write and the close separately and so
    covers both.  [EvWrite] records that the call returned. *)
Definition file_write {R} (d : bytes) : M R unit := fun s =>
  match dev env (dev_ops s) with
  | io_ok _ => (Normal tt, next_dev_op s, [EvWrite d])
  | io_error e => (Raised (IOError e), next_dev_op s, [EvIOError op_write e])
  end.

Definition file_close {R} : M R unit := fun s =>
  match dev env (dev_ops s) with
  | io_ok _ => (Normal tt, next_dev_op s, [EvClose])
  | io_error e => (Raised (IOError e), next_dev_op s, [EvIOError op_close e])
  end.

(** [with open(self.printer, mode, opener=self._nocreat_opener) as f: body].
    The file is closed however the body ends; an error on closing
    replaces the body's outcome. *)
Definition with_open {R A} (m : file_mode) (body : M R A) : M R A := fun s =>
  match @file_open R m s with
  | (Normal _, s1, t1) =>
      let '(o, s2, t2) := body s1 in
      match @file_close R s2 with
      | (Raised e, s3, t3) => (Raised e, s3, t1 ++ t2 ++ t3)
      | (_, s3, t3) => (o, s3, t1 ++ t2 ++ t3)
      end
  | (Returned r, s1, t1) => (Returned r, s1, t1)
  | (Raised e, s1, t1) => (Raised e, s1, t1)
  | (OutOfFuel, s1, t1) => (OutOfFuel, s1, t1)
  end.

Definition sleep {R} (ms : N) : M R unit := emit (EvSleep ms).

(** *** [fetch_status] *)

(** The local variables of [fetch_status]; [None] is "not yet assigned".
    [n1] and [n2] hold an [Optional[int]]. *)
Record locals := {
  r : option bytes;
  n1 : option (option N);
  n2 : option (option N)
}.

Definition no_locals : locals := {| r := None; n1 := None; n2 := None |}.
Definition set_r (l : locals) (v : bytes) : locals :=
  {| r := Some v; n1 := n1 l; n2 := n2 l |}.
Definition set_n1 (l : locals) (v : option N) : locals :=
  {| r := r l; n1 := Some v; n2 := n2 l |}.
Definition set_n2 (l : locals) (v : option N) : locals :=
  {| r := r l; n1 := n1 l; n2 := Some v |}.

(** Reading a local variable. *)
Definition load {R A} (var : string) (v : option A) : M R A :=
  match v with
  | Some a => pure a
  | None => raise (UnboundLocalError var)
  end.

Definition DLE_EOT_1 : bytes := [x10; x04; x01].
Definition DLE_EOT_2 : bytes := [x10; x04; x02].

(** The body of the [try], lines 73 to 125. *)
Definition fetch_status_try (l : locals) : M Status locals :=
  l <- with_open mode_a_plus_b
         (r <- file_read 32 ;;
          pure (set_r l r)) ;;
  with_open mode_a_plus_b (file_write DLE_EOT_1) ;;
  sleep 100 ;;
  l <- with_open mode_a_plus_b
         (r <- file_read 32 ;;
          let l := set_r l r in
          let l := set_n1 l (_find_dle_eot_response r) in
          match _find_dle_eot_response r with
          | None => return_ status_no_response
          | Some n1 =>
              if negb (truthy (N.land n1 0x28))
              then return_ status_ready
              else pure l
          end) ;;
  with_open mode_a_plus_b (file_write DLE_EOT_2) ;;
  sleep 100 ;;
  with_open mode_a_plus_b
    (r <- file_read 32 ;;
     let l := set_r l r in
     let l := set_n2 l (_find_dle_eot_response r) in
     match _find_dle_eot_response r with
     | None => return_ status_error
     | Some n2 =>
         if truthy (N.land n2 0x04) then return_ status_cover_open
         else if truthy (N.land n2 0x08) then return_ status_paper_being_fed
         else if truthy (N.land n2 0x20) then return_ status_oop
         else if truthy (N.land n2 0x40) then return_ status_error
         else pure l
     end).

(** The whole [try] statement, lines 72 to 128. *)
Definition fetch_status_guarded : M Status locals :=
  try_except (fetch_status_try no_locals) is_IOError
    (fun e => return_ status_not_connected).

Definition fetch_status_body : M Status Empty_set :=
  l <- fetch_status_guarded ;;
  v1 <- load "n1" (n1 l) ;;
  v2 <- load "n2" (n2 l) ;;
  return_ (status_message
             ("Unrecognised printer status: n1=" ++ repr_optional_int v1
              ++ " n2=" ++ repr_optional_int v2) false).

Definition fetch_status : M unit Status := call fetch_status_body.

(** *** Publishing *)

Definition set_current_status (s : State) (v : Status) : State :=
  {| connected := connected s; current_status := v;
     print_queue := print_queue s; dev_ops := dev_ops s;
     reconnects := reconnects s; loops := loops s;
     clock_reads := clock_reads s |}.

Definition set_connected (s : State) (v : bool) : State :=
  {| connected := v; current_status := current_status s;
     print_queue := print_queue s; dev_ops := dev_ops s;
     reconnects := reconnects s; loops := loops s;
     clock_reads := clock_reads s |}.

Definition set_print_queue (s : State) (v : list (string * bytes)) : State :=
  {| connected := connected s; current_status := current_status s;
     print_queue := v; dev_ops := dev_ops s;
     reconnects := reconnects s; loops := loops s;
     clock_reads := clock_reads s |}.

Definition check_printer_status_body : M unit unit :=
  new_status <- fetch_status ;;
  s <- get ;;
  if negb (Status_eqb new_status (current_status s))
  then
    put (set_current_status s new_status) ;;
    emit (EvPublish (status_topic cfg) (status_payload new_status) true)
  else pure tt.

Definition check_printer_status : M unit unit :=
  call_proc check_printer_status_body.

Definition send_print_status (jobid message : string)
    (finished success : bool) : M unit unit :=
  emit (EvPublish (printed_topic cfg)
          (printed_payload jobid message finished success) false).

(** *** The callbacks *)

Definition on_connect_body (rc : N) : M unit unit :=
  (if N.eqb rc 5 then raise (SystemExit 1) else pure tt) ;;
  if N.eqb rc 0
  then
    s <- get ;;
    put (set_connected s true) ;;
    emit (EvSubscribe (print_topic cfg) 0)
  else pure tt.

Definition lift {R A} (v : exn + A) : M R A :=
  match v with
  | inl e => raise e
  | inr a => pure a
  end.

Definition on_print_message_body (msg_payload : bytes) : M unit unit :=
  req <- try_except
           (match json_loads env msg_payload with
            | loads_value v => pure v
            | loads_raises e => raise e
            end)
           is_JSONDecodeError (fun _ => return_ tt) ;;
  has_jobid <- lift (py_contains "jobid" req) ;;
  if negb has_jobid then return_ tt else
  j <- lift (py_getitem req "jobid") ;;
  let jobid := py_str env j in
  has_data <- lift (py_contains "data" req) ;;
  if negb has_data
  then
    send_print_status jobid "Aborted: missing data" true false ;;
    return_ tt
  else
  data <- try_except
            (d <- lift (py_getitem req "data") ;;
             match b64decode env d with
             | inr b => pure b
             | inl e => raise (OtherException e)
             end)
            is_Exception
            (fun e =>
               send_print_status jobid
                 ("Error decoding data: e=" ++ repr_exn e) true false ;;
               return_ tt) ;;
  s <- get ;;
  put (set_print_queue s (print_queue s ++ [(jobid, data)])).

Definition on_print_message (msg_payload : bytes) : M unit unit :=
  call_proc (on_print_message_body msg_payload).

Definition on_connect (rc : N) : M unit unit :=
  call_proc (on_connect_body rc).

(** *** The broker *)

Definition next_reconnect (s : State) : State :=
  {| connected := connected s; current_status := current_status s;
     print_queue := print_queue s; dev_ops := dev_ops s;
     reconnects := S (reconnects s); loops := loops s;
     clock_reads := clock_reads s |}.

Definition next_loop (s : State) : State :=
  {| connected := connected s; current_status := current_status s;
     print_queue := print_queue s; dev_ops := dev_ops s;
     reconnects := reconnects s; loops := S (loops s);
     clock_reads := clock_reads s |}.

Definition next_clock_read (s : State) : State :=
  {| connected := connected s; current_status := current_status s;
     print_queue := print_queue s; dev_ops := dev_ops s;
     reconnects := reconnects s; loops := loops s;
     clock_reads := S (clock_reads s) |}.

(** [self.mqttc.reconnect()]. *)
Definition mqttc_reconnect : M unit unit := fun s =>
  match broker env (reconnects s) with
  | reconnect_ok =>
      (Normal tt, next_reconnect s, [EvReconnect reconnect_ok])
  | reconnect_refused =>
      (Raised ConnectionRefusedError, next_reconnect s,
       [EvReconnect reconnect_refused])
  | reconnect_raises e =>
      (Raised e, next_reconnect s, [EvReconnect (reconnect_raises e)])
  end.

Definition dispatch (i : inbound) : M unit unit :=
  match i with
  | in_connack rc => on_connect rc
  | in_print p => on_print_message p
  end.

Fixpoint dispatch_all (l : list inbound) : M unit unit :=
  match l with
  | [] => pure tt
  | i :: l' => dispatch i ;; dispatch_all l'
  end.

(** [self.mqttc.loop(timeout=timeout)]: the callbacks run inside the call,
    and an exception of a callback leaves through it. *)
Definition mqttc_loop (timeout : Z) : M unit loop_rc :=
  s <- get ;;
  put (next_loop s) ;;
  emit (EvLoop timeout) ;;
  dispatch_all (fst (network env (loops s))) ;;
  pure (snd (network env (loops s))).

Definition time_time : M unit Z := fun s =>
  (Normal (clock env (clock_reads s)), next_clock_read s, []).

(** *** [run] *)

(** Lines 192 to 207. *)
Definition run_print_job : M unit unit :=
  s <- get ;;
  match print_queue s with
  | [] => pure tt
  | (jobid, data) :: rest =>
      put (set_print_queue s rest) ;;
      st <- fetch_status ;;
      if ok st
      then
        try_except
          (with_open mode_ab
             (file_write data ;;
              send_print_status jobid "Printed" true true))
          is_Exception
          (fun e =>
             send_print_status jobid ("Print failed: e=" ++ repr_exn e)
               true false)
      else send_print_status jobid (status st) true false
  end.

(** Lines 209 to 214; [fuel] bounds the number of rounds the model
    follows. *)
Fixpoint run_reconnect (fuel : nat) : M unit unit :=
  s <- get ;;
  if connected s then pure tt else
  match fuel with
  | O => fun s => (OutOfFuel, s, [])
  | S fuel' =>
      try_except
        (mqttc_reconnect ;;
         s <- get ;;
         put (set_connected s true))
        is_ConnectionRefusedError
        (fun _ => sleep 1000) ;;
      run_reconnect fuel'
  end.

(** Lines 222 to 224. *)
Definition run_wait (timeout : Z) : M unit unit :=
  rc <- mqttc_loop timeout ;;
  if loop_rc_eqb rc MQTT_ERR_CONN_LOST
  then s <- get ;; put (set_connected s false)
  else pure tt.

(** Lines 216 to 224; the local [status_check_deadline] goes in and out.
    Times are exact numbers of milliseconds: the rounding of floats and
    the value that is not a number have no counterpart here. *)
Definition run_poll (status_check_deadline : Z) : M unit Z :=
  s <- get ;;
  if connected s
  then
    now <- time_time ;;
    status_check_deadline <-
      (if Z.leb status_check_deadline now
       then
         check_printer_status ;;
         pure (now + status_check_interval cfg)%Z
       else pure status_check_deadline) ;;
    let timeout := Z.max (status_check_deadline - now) 0 in
    run_wait timeout ;;
    pure status_check_deadline
  else pure status_check_deadline.

(** One round of [while True]. *)
Definition run_iteration (fuel : nat) (status_check_deadline : Z) : M unit Z :=
  emit (EvNotify "WATCHDOG=1") ;;
  run_print_job ;;
  run_reconnect fuel ;;
  run_poll status_check_deadline.

(** [iterations] rounds of [while True], which itself has no exit. *)
Fixpoint run_loop (iterations fuel : nat) (status_check_deadline : Z)
    : M unit Z :=
  match iterations with
  | O => fun s => (OutOfFuel, s, [])
  | S n =>
      d <- run_iteration fuel status_check_deadline ;;
      run_loop n fuel d
  end.

Definition run (iterations fuel : nat) : M unit Z := run_loop iterations fuel 0.

End Methods.

(** The state [__init__] leaves. *)
Definition init : State :=
  {| connected := false; current_status := status_offline;
     print_queue := []; dev_ops := 0; reconnects := 0; loops := 0;
     clock_reads := 0 |}.

End ReceiptPrinter.

Import ReceiptPrinter.

(** ** Reading traces *)

Definition is_io_error (e : event) : bool :=
  match e with EvIOError _ _ => true | _ => false end.

(** Some file operation of the run failed. *)
Definition io_failed (t : list event) : bool := existsb is_io_error t.

Fixpoint reads (t : list event) : list bytes :=
  match t with
  | [] => []
  | EvRead _ d :: t' => d :: reads t'
  | _ :: t' => reads t'
  end.

Fixpoint writes (t : list event) : list bytes :=
  match t with
  | [] => []
  | EvWrite d :: t' => d :: writes t'
  | _ :: t' => writes t'
  end.

Fixpoint opens (t : list event) : nat :=
  match t with
  | [] => 0
  | EvOpen _ :: t' => S (opens t')
  | _ :: t' => opens t'
  end.

Fixpoint closes (t : list event) : nat :=
  match t with
  | [] => 0
  | EvClose :: t' => S (closes t')
  | _ :: t' => closes t'
  end.

(** Total time spent in [time.sleep], in milliseconds. *)
Fixpoint slept (t : list event) : N :=
  match t with
  | [] => 0
  | EvSleep ms :: t' => ms + slept t'
  | _ :: t' => slept t'
  end.

Fixpoint published (t : list event) : list (string * payload * bool) :=
  match t with
  | [] => []
  | EvPublish topic p retain :: t' => (topic, p, retain) :: published t'
  | _ :: t' => published t'
  end.

Fixpoint notifications (t : list event) : nat :=
  match t with
  | [] => 0
  | EvNotify _ :: t' => S (notifications t')
  | _ :: t' => notifications t'
  end.

(** ** The response protocol in words *)

(** The mask test of a response byte. *)
Definition mask_test (b : byte) : bool :=
  N.eqb (N.land (Byte.to_N b) 0x93) 0x12.

(** No byte of [r] passes the mask test. *)
Definition no_response (r : bytes) : Prop :=
  forall b, In b r -> mask_test b = false.

(** [n] is the value of the first byte of [r] that passes the mask test. *)
Definition accepted (r : bytes) (n : N) : Prop :=
  exists pre b post,
    r = pre ++ b :: post /\
    (forall x, In x pre -> mask_test x = false) /\
    mask_test b = true /\
    n = Byte.to_N b.

(** The dictionary built by the last [return] of [fetch_status] from two
    integers. *)
Definition unrecognised (v1 v2 : N) : Status :=
  status_message
    ("Unrecognised printer status: n1=" ++ repr_int v1
     ++ " n2=" ++ repr_int v2) false.

(** The trace of a query that stops after phase 1, and what phase 2 adds. *)
Definition phase1_trace (drained r1 : bytes) : list event :=
  [EvOpen mode_a_plus_b; EvRead 32 drained; EvClose;
   EvOpen mode_a_plus_b; EvWrite DLE_EOT_1; EvClose;
   EvSleep 100;
   EvOpen mode_a_plus_b; EvRead 32 r1; EvClose].

Definition phase2_trace (r2 : bytes) : list event :=
  [EvOpen mode_a_plus_b; EvWrite DLE_EOT_2; EvClose;
   EvSleep 100;
   EvOpen mode_a_plus_b; EvRead 32 r2; EvClose].

(** ** Environments for concrete runs *)

Definition scripted (l : list io_reply) (k : nat) : io_reply :=
  nth k l (io_ok []).

Definition quiet_env (device : nat -> io_reply) : Env :=
  {| dev := device;
     broker := fun _ => reconnect_ok;
     network := fun _ => ([], MQTT_ERR_SUCCESS);
     clock := fun _ => 0%Z;
     json_loads := fun _ => loads_raises JSONDecodeError;
     b64decode := fun _ => inl "Error()";
     py_str := fun _ => "" |}.

(** A device that answers phase 1 with [r1] and phase 2 with [r2]. *)
Definition answering (r1 r2 : bytes) : nat -> io_reply :=
  scripted [io_ok []; io_ok [x00]; io_ok []; io_ok []; io_ok []; io_ok [];
            io_ok []; io_ok r1; io_ok []; io_ok []; io_ok []; io_ok [];
            io_ok []; io_ok r2; io_ok []].

(** Every file operation succeeds, and the reads of phase 1 and phase 2
    of a query started in state [s] return [r1] and [r2]. *)
Definition responds (env : Env) (s : State) (r1 r2 : bytes) : Prop :=
  (forall i, exists d, dev env i = io_ok d) /\
  (exists d, dev env (7 + dev_ops s) = io_ok d /\ firstn 32 d = r1) /\
  (exists d, dev env (13 + dev_ops s) = io_ok d /\ firstn 32 d = r2).

(** A device whose [k]-th operation fails and that answers like
    [answering r1 r2] otherwise. *)
Definition failing_at (k : nat) (r1 r2 : bytes) (i : nat) : io_reply :=
  if Nat.eqb i k then io_error "OSError(5, Input/output error)"
  else answering r1 r2 i.

(** ** Reading the job results *)

(** The event of [send_print_status(jobid, message, success=success)]. *)
Definition printed_result (cfg : Config) (jobid message : string)
    (success : bool) : event :=
  EvPublish (printed_topic cfg)
    (printed_payload jobid message true success) false.

(** The error of the last file operation that failed. *)
Fixpoint last_io_error (t : list event) : option string :=
  match t with
  | [] => None
  | e :: t' =>
      match last_io_error t' with
      | Some x => Some x
      | None => match e with EvIOError _ x => Some x | _ => None end
      end
  end.


(** ** Reading the reconnection rounds *)

(** [k] refused attempts, each followed by its one-second sleep. *)
Fixpoint retries (k : nat) : list event :=
  match k with
  | O => []
  | S k' => EvReconnect reconnect_refused :: EvSleep 1000 :: retries k'
  end.

(** A block that sends no watchdog signal. *)
Definition quiet {R A} (m : M R A) : Prop :=
  forall s, notifications (trace_of m s) = 0.

(** Every reconnect attempt but the first has a watchdog signal between
    it and the attempt before. *)
Fixpoint watchdog_since (notified : bool) (t : list event) : bool :=
  match t with
  | [] => true
  | EvReconnect _ :: t' => notified && watchdog_since false t'
  | EvNotify _ :: t' => watchdog_since true t'
  | _ :: t' => watchdog_since notified t'
  end.

Definition watchdog_between_attempts (t : list event) : bool :=
  watchdog_since true t.

(** ** Concrete configurations *)

Definition shop_cfg : Config := configure "shop" 5000.

Definition env_ready : Env := quiet_env (answering [x12] []).
Definition env_cover_open : Env := quiet_env (answering [x3a] [x16]).
Definition env_unrecognised : Env := quiet_env (answering [x00; x3a] [x12]).
Definition env_raw_ready : Env := quiet_env (answering [x00] []).
Definition env_raw_cover_open : Env := quiet_env (answering [x28] [x04]).
Definition env_read_fails : Env := quiet_env (failing_at 13 [x3a] [x16]).

(** The broker refuses twice, then accepts. *)
Definition env_refusing : Env :=
  {| dev := answering [x12] [];
     broker := fun k => nth k [reconnect_refused; reconnect_refused] reconnect_ok;
     network := fun _ => ([], MQTT_ERR_SUCCESS);
     clock := fun _ => 0%Z;
     json_loads := fun _ => loads_raises JSONDecodeError;
     b64decode := fun _ => inl "Error()";
     py_str := fun _ => "" |}.

(** The first call of [mqttc.loop] reports a lost connection. *)
Definition env_conn_lost : Env :=
  {| dev := answering [x12] [];
     broker := fun _ => reconnect_ok;
     network := fun k => ([], match k with
                              | O => MQTT_ERR_CONN_LOST
                              | S _ => MQTT_ERR_SUCCESS
                              end);
     clock := fun _ => 0%Z;
     json_loads := fun _ => loads_raises JSONDecodeError;
     b64decode := fun _ => inl "Error()";
     py_str := fun _ => "" |}.

Definition hello : bytes := [x68; x65; x6c; x6c; x6f].

(** One job waiting, the broker connected. *)
Definition one_job : State :=
  {| connected := true; current_status := status_ready;
     print_queue := [("7", hello)]; dev_ops := 0; reconnects := 0;
     loops := 0; clock_reads := 0 |}.

Definition connected_init : State :=
  {| connected := true; current_status := status_offline;
     print_queue := []; dev_ops := 0; reconnects := 0; loops := 0;
     clock_reads := 0 |}.

(** The message [{"jobid":7,"data":"aGVsbG8="}] arrives in the first call
    of [mqttc.loop]; the library functions are given on the values this
    message brings. *)
Definition hello_message : bytes := [x7b; x37; x7d].

Definition env_shop : Env :=
  {| dev := fun _ => io_ok [x12];
     broker := fun _ => reconnect_ok;
     network := fun k => (match k with
                          | O => [in_print hello_message]
                          | S _ => []
                          end, MQTT_ERR_SUCCESS);
     clock := fun _ => 0%Z;
     json_loads := fun p =>
       match p with
       | [x7b; x37; x7d] =>
           loads_value (PyDict [("jobid", PyInt 7);
                                ("data", PyStr "aGVsbG8=")])
       | _ => loads_raises JSONDecodeError
       end;
     b64decode := fun v =>
       match v with
       | PyStr "aGVsbG8=" => inr hello
       | _ => inl "Error(Incorrect padding)"
       end;
     py_str := fun v =>
       match v with
       | PyInt 7 => "7"
       | _ => ""
       end |}.

(** ** The opener

    [_nocreat_opener]: [os.open(path, flags & ~os.O_CREAT)], with
    [os.open] and the constant [os.O_CREAT] of the platform as
    parameters.  Python's integers are unbounded and [~] is the two's
    complement, as [Z.lnot]. *)
Definition _nocreat_opener {FD : Type} (os_open : string -> Z -> FD)
    (O_CREAT : Z) (path : string) (flags : Z) : FD :=
  os_open path (Z.land flags (Z.lnot O_CREAT)).

(** ** Reading traces, continued *)

(** An operation on the device file, succeeded or failed. *)
Definition is_file_event (e : event) : bool :=
  match e with
  | EvOpen _ | EvRead _ _ | EvWrite _ | EvClose | EvIOError _ _ => true
  | _ => false
  end.

(** The number of operations on the device file. *)
Definition file_events (t : list event) : nat :=
  List.length (filter is_file_event t).

(** A call of the MQTT client that sends: [publish] or [subscribe]. *)
Definition is_bus_event (e : event) : Prop :=
  match e with
  | EvPublish _ _ _ | EvSubscribe _ _ => True
  | _ => False
  end.

Definition is_reconnect (e : event) : bool :=
  match e with EvReconnect _ => true | _ => false end.

(** The timeout handed to [mqttc.loop] is not negative. *)
Definition timeout_not_negative (e : event) : Prop :=
  match e with
  | EvLoop timeout => (0 <= timeout)%Z
  | _ => True
  end.

(** What the program sends and how it waits: a status on the status
    topic, retained; a job result on the printed topic, not retained,
    finished, and successful only as "Printed"; a subscription to the
    print topic at QoS 0; the watchdog signal; sleeps of 100 ms and of
    one second. *)
Definition bus_discipline (cfg : Config) (e : event) : Prop :=
  match e with
  | EvPublish topic p retain =>
      (topic = status_topic cfg /\ retain = true /\
       exists st, p = status_payload st)
      \/
      (topic = printed_topic cfg /\ retain = false /\
       exists j m x, p = printed_payload j m true x /\
                     (x = true -> m = "Printed"))
  | EvSubscribe topic qos => topic = print_topic cfg /\ qos = 0%N
  | EvNotify msg => msg = "WATCHDOG=1"
  | EvSleep ms => ms = 100%N \/ ms = 1000%N
  | _ => True
  end.

(** A job result as [published] lists it. *)
Definition job_result (cfg : Config) (jobid message : string)
    (success : bool) : string * payload * bool :=
  (printed_topic cfg, printed_payload jobid message true success, false).

(** The status of the last message published with a status payload. *)
Fixpoint last_status_published (t : list event) : option Status :=
  match t with
  | [] => None
  | e :: t' =>
      match last_status_published t' with
      | Some st => Some st
      | None =>
          match e with
          | EvPublish _ (status_payload st) _ => Some st
          | _ => None
          end
      end
  end.

(** Every event a block produces, from whatever state, satisfies [P]. *)
Definition always (P : event -> Prop) {R A} (m : M R A) : Prop :=
  forall s, Forall P (trace_of m s).

(** A block leaves the part [f] of the state as it found it. *)
Definition keeps {X : Type} (f : State -> X) {R A} (m : M R A) : Prop :=
  forall s, f (state_of m s) = f s.

(** [msg] is the JSON object of the job [job]: [json.loads] gives an
    object whose [jobid] prints as the job's id and whose [data] decodes
    to the job's bytes. *)
Definition decodes (env : Env) (msg : bytes) (job : string * bytes) : Prop :=
  exists items j d,
    json_loads env msg = loads_value (PyDict items) /\
    dict_get items "jobid" = Some j /\
    dict_get items "data" = Some d /\
    py_str env j = fst job /\
    b64decode env d = inr (snd job).

(** [n] successive calls of [check_printer_status]. *)
Fixpoint run_checks (env : Env) (cfg : Config) (n : nat) : M unit unit :=
  match n with
  | O => pure tt
  | S n' =>
      bind (check_printer_status env cfg) (fun _ => run_checks env cfg n')
  end.

(** ** Concrete configurations, continued *)

(** Reconnecting raises an error that is not a refusal. *)
Definition env_broker_down : Env :=
  {| dev := answering [x12] [];
     broker := fun _ => reconnect_raises (OtherOSError "TimeoutError()");
     network := fun _ => ([], MQTT_ERR_SUCCESS);
     clock := fun _ => 0%Z;
     json_loads := fun _ => loads_raises JSONDecodeError;
     b64decode := fun _ => inl "Error()";
     py_str := fun _ => "" |}.

(** The broker answers the connection with return code 5. *)
Definition env_not_authorised : Env :=
  {| dev := answering [x12] [];
     broker := fun _ => reconnect_ok;
     network := fun _ => ([in_connack 5; in_print hello_message],
                          MQTT_ERR_SUCCESS);
     clock := fun _ => 0%Z;
     json_loads := fun _ => loads_raises JSONDecodeError;
     b64decode := fun _ => inl "Error()";
     py_str := fun _ => "" |}.

(** ** Reading the queue *)


(** ** Base64 text

    The alphabet of RFC 4648, and text that is base64: characters of the
    alphabet followed by at most two [=], four characters to a group. *)
Definition base64_char (c : ascii) : bool :=
  let n := nat_of_ascii c in
  ((65 <=? n)%nat && (n <=? 90)%nat) || ((97 <=? n)%nat && (n <=? 122)%nat)
  || ((48 <=? n)%nat && (n <=? 57)%nat) || (n =? 43)%nat || (n =? 47)%nat.

Fixpoint strip_padding (n : nat) (reversed : list ascii) : list ascii :=
  match n, reversed with
  | S n', c :: l =>
      if Ascii.eqb c "="%char then strip_padding n' l else reversed
  | _, _ => reversed
  end.

Definition valid_base64 (s : string) : bool :=
  let chars := list_ascii_of_string s in
  (List.length chars mod 4 =? 0)%nat
  && forallb base64_char (strip_padding 2 (rev chars)).

(** ** Concrete configurations: two awkward messages

    The message [{"jobid":7,"data":"aGVs*bG8=!"}], whose data is not
    base64 text: [base64.b64decode], called without [validate], discards
    the characters outside the alphabet and decodes the rest.  And a
    payload of the single byte [0xff], which is not UTF-8: [json.loads]
    decodes the bytes first and raises [UnicodeDecodeError], which is a
    [ValueError] but no [JSONDecodeError].  The second arrives in the
    first call of [mqttc.loop]. *)
Definition starred_message : bytes := [x7b; x2a; x7d].

Definition not_utf8 : bytes := [xff].

Definition env_lenient : Env :=
  {| dev := fun _ => io_ok [x12];
     broker := fun _ => reconnect_ok;
     network := fun k => (match k with
                          | O => [in_print not_utf8]
                          | S _ => []
                          end, MQTT_ERR_SUCCESS);
     clock := fun _ => 0%Z;
     json_loads := fun p =>
       match p with
       | [x7b; x2a; x7d] =>
           loads_value (PyDict [("jobid", PyInt 7);
                                ("data", PyStr "aGVs*bG8=!")])
       | [xff] =>
           loads_raises
             (OtherException
                "UnicodeDecodeError('utf-8', b'\xff', 0, 1, 'invalid start byte')")
       | _ => loads_raises JSONDecodeError
       end;
     b64decode := fun v =>
       match v with
       | PyStr "aGVs*bG8=!" => inr hello
       | _ => inl "Error(Incorrect padding)"
       end;
     py_str := fun v =>
       match v with
       | PyInt 7 => "7"
       | _ => ""
       end |}.

(** * Properties *)

(** ** Topics *)

Example configure_prefixes :
  configure "shop" 5000 = configure "shop/" 5000 /\
  status_topic (configure "shop" 5000) = "shop/status" /\
  printed_topic (configure "" 5000) = "printed".
Proof. repeat split. Qed.

(** ** Response bytes *)

Lemma truthy_true (n : N) : truthy n = true <-> n <> 0%N.
Proof.
  unfold truthy. rewrite negb_true_iff, N.eqb_neq. tauto.
Qed.

Lemma truthy_false (n : N) : truthy n = false <-> n = 0%N.
Proof.
  unfold truthy. rewrite negb_false_iff, N.eqb_eq. tauto.
Qed.

Lemma find_None_no_response (r : bytes) :
  _find_dle_eot_response r = None -> no_response r.
Proof.
  induction r as [|b r IH]; intros H x Hin.
  - destruct Hin.
  - simpl in H. unfold mask_test.
    destruct (N.eqb (N.land (Byte.to_N b) 147) 18) eqn:E; [discriminate|].
    destruct Hin as [<-|Hin]; [exact E|]. apply (IH H x Hin).
Qed.

Lemma find_Some_accepted (r : bytes) (n : N) :
  _find_dle_eot_response r = Some n -> accepted r n.
Proof.
  induction r as [|b r IH]; intros H; [discriminate|].
  simpl in H.
  destruct (N.eqb (N.land (Byte.to_N b) 147) 18) eqn:E.
  - injection H as <-. exists [], b, r. repeat split; auto.
    intros x [].
  - destruct (IH H) as (pre & c & post & -> & Hpre & Hc & ->).
    exists (b :: pre), c, post. repeat split; auto.
    intros x [<-|Hx]; [exact E|auto].
Qed.

(** ** Walking through [fetch_status]

    The query is a straight line of file operations.  The tactics below
    follow it operation by operation: the reply of the device to the next
    operation is split into success and failure, then the scan of a read
    and each bit test, until the result is a value. *)

Ltac unfold_fs :=
  cbv beta iota zeta delta
    [fetch_status fetch_status_body fetch_status_guarded fetch_status_try
     call bind try_except with_open
     file_open file_read file_write file_close sleep emit pure return_ raise
     load next_dev_op dev_ops set_r set_n1 set_n2 n1 n2 r no_locals
     is_IOError app
     connected current_status print_queue reconnects loops clock_reads
     run_of trace_of state_of fst snd].

Ltac name_reads :=
  repeat match goal with
  | |- context [firstn 32 ?d] =>
      is_var d; let r := fresh "r" in
      remember (firstn 32 d) as r eqn:?
  end.

Ltac dev_first env k fuel :=
  lazymatch fuel with
  | S ?f =>
      lazymatch goal with
      | |- context [dev env k] =>
          destruct (dev env k) as [?d|?e] eqn:?; cbv beta iota; name_reads
      | _ => dev_first env (S k) f
      end
  end.

Ltac data_one :=
  match goal with
  | |- context [_find_dle_eot_response ?x] =>
      destruct (_find_dle_eot_response x) as [?n|] eqn:?; cbv beta iota
  | |- context [truthy ?x] =>
      destruct (truthy x) eqn:?; cbv beta iota delta [negb]
  end.

Ltac walk env k := repeat first [ dev_first env k 16 | data_one ].

Ltac fs_cases env s :=
  let k := fresh "k" in
  let res := fresh "res" in
  let E := fresh "E" in
  unfold run_of, trace_of, state_of;
  remember (fetch_status env s) as res eqn:E; revert E;
  destruct s as [? ? ? k ? ? ?]; unfold_fs; walk env k;
  intros ->; cbv beta iota delta [fst snd].

Ltac use_data :=
  repeat match goal with
  | H : _find_dle_eot_response _ = None |- _ =>
      apply find_None_no_response in H
  | H : _find_dle_eot_response _ = Some _ |- _ =>
      apply find_Some_accepted in H
  | H : truthy _ = true |- _ => apply truthy_true in H
  | H : truthy _ = false |- _ => apply truthy_false in H
  end.

(** The query always returns a status, changes nothing of the object, and
    neither publishes nor signals the watchdog. *)
Lemma fetch_status_frame (env : Env) (s : State) :
  exists st k t,
    fetch_status env s = (Normal st, with_dev_ops s k, t) /\
    published t = [] /\ notifications t = 0.
Proof.
  remember (fetch_status env s) as res eqn:E. revert E.
  destruct s as [? ? ? k ? ? ?]. unfold_fs. walk env k.
  all: intros ->; do 3 eexists; split; [reflexivity|split; reflexivity].
Qed.

Lemma fetch_status_not_offline (env : Env) (s : State) :
  run_of (fetch_status env) s <> Normal status_offline.
Proof.
  fs_cases env s; intros H; discriminate H.
Qed.

(** ** The decision of [fetch_status] *)

(** C1.  In a query whose file operations all succeed: when no byte of
    the phase-1 read passes the mask test the result is
    [status_no_response]; when the accepted phase-1 byte has bits [0x28]
    clear the result is [status_ready] and only the phase-1 command was
    written; otherwise the phase-2 command is written and read, no
    accepted byte gives [status_error], and an accepted byte is tested
    for [0x04], [0x08], [0x20], [0x40] in this order, the first bit set
    deciding; with none set the result is the unrecognised status made
    of both accepted bytes. *)
Theorem fetch_status_decision (env : Env) (s : State) :
  io_failed (trace_of (fetch_status env) s) = false ->
  exists st t drained r1,
    run_of (fetch_status env) s = Normal st /\
    trace_of (fetch_status env) s = t /\
    ((no_response r1 /\ st = status_no_response /\
      reads t = [drained; r1] /\ writes t = [DLE_EOT_1])
     \/
     exists n1, accepted r1 n1 /\
       ((N.land n1 0x28 = 0%N /\ st = status_ready /\
         reads t = [drained; r1] /\ writes t = [DLE_EOT_1])
        \/
        (N.land n1 0x28 <> 0%N /\
         exists r2,
           reads t = [drained; r1; r2] /\
           writes t = [DLE_EOT_1; DLE_EOT_2] /\
           ((no_response r2 /\ st = status_error)
            \/
            exists n2, accepted r2 n2 /\
              ((N.land n2 0x04 <> 0%N /\ st = status_cover_open)
               \/
               (N.land n2 0x04 = 0%N /\ N.land n2 0x08 <> 0%N /\
                st = status_paper_being_fed)
               \/
               (N.land n2 0x04 = 0%N /\ N.land n2 0x08 = 0%N /\
                N.land n2 0x20 <> 0%N /\ st = status_oop)
               \/
               (N.land n2 0x04 = 0%N /\ N.land n2 0x08 = 0%N /\
                N.land n2 0x20 = 0%N /\ N.land n2 0x40 <> 0%N /\
                st = status_error)
               \/
               (N.land n2 0x04 = 0%N /\ N.land n2 0x08 = 0%N /\
                N.land n2 0x20 = 0%N /\ N.land n2 0x40 = 0%N /\
                st = unrecognised n1 n2)))))).
Proof.
  fs_cases env s.
  all: cbv [io_failed existsb is_io_error orb]; intros Hio;
    try discriminate Hio.
  all: use_data; do 4 eexists; split; [reflexivity|split; [reflexivity|]].
  all: cbv [reads writes]; eauto 30.
Qed.

Lemma fetch_status_decision_witness :
  io_failed (trace_of (fetch_status env_unrecognised) init) = false /\
  exists st t drained r1,
    run_of (fetch_status env_unrecognised) init = Normal st /\
    trace_of (fetch_status env_unrecognised) init = t /\
    ((no_response r1 /\ st = status_no_response /\
      reads t = [drained; r1] /\ writes t = [DLE_EOT_1])
     \/
     exists n1, accepted r1 n1 /\
       ((N.land n1 0x28 = 0%N /\ st = status_ready /\
         reads t = [drained; r1] /\ writes t = [DLE_EOT_1])
        \/
        (N.land n1 0x28 <> 0%N /\
         exists r2,
           reads t = [drained; r1; r2] /\
           writes t = [DLE_EOT_1; DLE_EOT_2] /\
           ((no_response r2 /\ st = status_error)
            \/
            exists n2, accepted r2 n2 /\
              ((N.land n2 0x04 <> 0%N /\ st = status_cover_open)
               \/
               (N.land n2 0x04 = 0%N /\ N.land n2 0x08 <> 0%N /\
                st = status_paper_being_fed)
               \/
               (N.land n2 0x04 = 0%N /\ N.land n2 0x08 = 0%N /\
                N.land n2 0x20 <> 0%N /\ st = status_oop)
               \/
               (N.land n2 0x04 = 0%N /\ N.land n2 0x08 = 0%N /\
                N.land n2 0x20 = 0%N /\ N.land n2 0x40 <> 0%N /\
                st = status_error)
               \/
               (N.land n2 0x04 = 0%N /\ N.land n2 0x08 = 0%N /\
                N.land n2 0x20 = 0%N /\ N.land n2 0x40 = 0%N /\
                st = unrecognised n1 n2)))))).
Proof.
  split; [reflexivity|].
  apply (fetch_status_decision env_unrecognised init). reflexivity.
Defined.

(** The run of the witness, evaluated. *)
Example fetch_status_unrecognised_run :
  fetch_status env_unrecognised init
  = (Normal (status_message "Unrecognised printer status: n1=58 n2=18" false),
     with_dev_ops init 15,
     (phase1_trace [x00] [x00; x3a] ++ phase2_trace [x12])%list).
Proof. reflexivity. Qed.

Example fetch_status_ready_run :
  fetch_status env_ready init
  = (Normal status_ready, with_dev_ops init 9, phase1_trace [x00] [x12]).
Proof. reflexivity. Qed.

(** ** I/O errors *)

(** C7.  When a file operation of the query fails (opening, reading,
    writing or closing, in either phase and whatever was read before),
    [fetch_status] returns [status_not_connected]: the error does not
    leave the function. *)
Theorem fetch_status_io_error (env : Env) (s : State) :
  io_failed (trace_of (fetch_status env) s) = true ->
  run_of (fetch_status env) s = Normal status_not_connected.
Proof.
  fs_cases env s.
  all: cbv [io_failed existsb is_io_error orb]; intros Hio;
    try discriminate Hio; reflexivity.
Qed.

Lemma fetch_status_io_error_witness :
  io_failed (trace_of (fetch_status env_read_fails) init) = true /\
  run_of (fetch_status env_read_fails) init = Normal status_not_connected.
Proof.
  split; [reflexivity|].
  apply (fetch_status_io_error env_read_fails init). reflexivity.
Defined.

(** The failing read of phase 2 comes after phase 1 has read an offline
    byte. *)
Example fetch_status_read_fails_run :
  reads (trace_of (fetch_status env_read_fails) init) = [[x00]; [x3a]] /\
  last_io_error (trace_of (fetch_status env_read_fails) init)
  = Some "OSError(5, Input/output error)".
Proof. split; reflexivity. Qed.

(** ** [ok] *)

(** C9.  Of the eight class-level statuses, of any dictionary built with
    [ok] false (the unrecognised status is built so), and of whatever
    [fetch_status] returns, [ok] is true exactly for [status_ready]. *)
Theorem ok_iff_ready (env : Env) (s : State) :
  Forall (fun st => ok st = true <-> st = status_ready)
    [status_offline; status_cover_open; status_paper_being_fed; status_oop;
     status_error; status_no_response; status_not_connected; status_ready] /\
  (forall text,
      ok (status_message text false) = true <->
      status_message text false = status_ready) /\
  exists st,
    run_of (fetch_status env) s = Normal st /\
    (ok st = true <-> st = status_ready).
Proof.
  split; [|split].
  - repeat constructor; simpl; intros H; discriminate H.
  - intros text; split; intros H; discriminate H.
  - fs_cases env s.
    all: eexists; split; [reflexivity|].
    all: split; intros H; first [reflexivity | discriminate H].
Qed.

(** ** The last [return] *)

(** C10.  When the [try] statement of [fetch_status] ends without a
    [return], so that the last [return] runs, [n1] holds an accepted
    phase-1 byte with some bit of [0x28] set and [n2] an accepted phase-2
    byte with none of [0x04], [0x08], [0x20], [0x40] set; both phases
    ran, and the function returns the unrecognised status of the two. *)
Theorem unrecognised_fallback_guarded (env : Env) (s : State) (l : locals) :
  run_of (fetch_status_guarded env) s = Normal l ->
  exists drained r1 r2 v1 v2,
    n1 l = Some (Some v1) /\ n2 l = Some (Some v2) /\
    accepted r1 v1 /\ N.land v1 0x28 <> 0%N /\
    accepted r2 v2 /\
    N.land v2 0x04 = 0%N /\ N.land v2 0x08 = 0%N /\
    N.land v2 0x20 = 0%N /\ N.land v2 0x40 = 0%N /\
    trace_of (fetch_status env) s
    = (phase1_trace drained r1 ++ phase2_trace r2)%list /\
    run_of (fetch_status env) s = Normal (unrecognised v1 v2).
Proof.
  unfold run_of, trace_of.
  remember (fetch_status env s) as res eqn:E. revert E.
  destruct s as [? ? ? k ? ? ?]. unfold_fs. walk env k.
  all: intros ->; cbv beta iota delta [fst snd]; intros Hl;
    try discriminate Hl.
  injection Hl as <-. use_data. cbv [n1 n2 phase1_trace phase2_trace app].
  do 5 eexists. repeat split; eauto.
Qed.

Lemma unrecognised_fallback_guarded_witness :
  run_of (fetch_status_guarded env_unrecognised) init
  = Normal {| r := Some [x12]; n1 := Some (Some 58%N); n2 := Some (Some 18%N) |} /\
  exists drained r1 r2 v1 v2,
    Some (Some 58%N) = Some (Some v1) /\ Some (Some 18%N) = Some (Some v2) /\
    accepted r1 v1 /\ N.land v1 0x28 <> 0%N /\
    accepted r2 v2 /\
    N.land v2 0x04 = 0%N /\ N.land v2 0x08 = 0%N /\
    N.land v2 0x20 = 0%N /\ N.land v2 0x40 = 0%N /\
    trace_of (fetch_status env_unrecognised) init
    = (phase1_trace drained r1 ++ phase2_trace r2)%list /\
    run_of (fetch_status env_unrecognised) init = Normal (unrecognised v1 v2).
Proof.
  split; [reflexivity|].
  apply (unrecognised_fallback_guarded env_unrecognised init
           {| r := Some [x12]; n1 := Some (Some 58%N); n2 := Some (Some 18%N) |}).
  reflexivity.
Defined.

(** ** Open/close cycles and delays *)

(** C5, as the code has it.  A query opens the device at most five times
    and sleeps at most 200 ms.  When no file operation fails its trace is
    exactly one of two: the drain, the phase-1 command, a 100 ms sleep
    and the phase-1 read (three cycles, 100 ms); or these followed by the
    phase-2 command, a 100 ms sleep and the phase-2 read (five cycles,
    200 ms).  The only drain is the one before the phase-1 command. *)
Theorem fetch_status_cycles (env : Env) (s : State) :
  opens (trace_of (fetch_status env) s) <= 5 /\
  closes (trace_of (fetch_status env) s) <= opens (trace_of (fetch_status env) s) /\
  (slept (trace_of (fetch_status env) s) <= 200)%N /\
  (io_failed (trace_of (fetch_status env) s) = true \/
   exists t drained r1,
     trace_of (fetch_status env) s = t /\
     ((t = phase1_trace drained r1 /\ opens t = 3 /\ slept t = 100%N) \/
      exists r2,
        t = (phase1_trace drained r1 ++ phase2_trace r2)%list /\
        opens t = 5 /\ slept t = 200%N)).
Proof.
  fs_cases env s.
  all: cbv [opens closes slept io_failed existsb is_io_error orb
            phase1_trace phase2_trace app].
  all: repeat split; try lia; eauto 10.
  all: right; do 3 eexists; split; [reflexivity|]; eauto 10.
Qed.

(** C5, as stated, fails: a query that needs phase 2 makes five
    open/close cycles and three reads (one drain and the two responses),
    and a query that ends in phase 1 sleeps 100 ms in all. *)
Lemma fetch_status_cycles_counterexample :
  ~ (opens (trace_of (fetch_status env_cover_open) init) <= 4) /\
  List.length (reads (trace_of (fetch_status env_cover_open) init)) = 3 /\
  slept (trace_of (fetch_status env_ready) init) <> 200%N.
Proof.
  repeat split.
  - vm_compute. lia.
  - vm_compute. discriminate.
Qed.

(** ** The examples of the decoding table *)

Ltac all_ok Hall :=
  match goal with
  | E : dev _ ?k = io_error _ |- _ =>
      let d := fresh in
      let H := fresh in
      destruct (Hall k) as [d H]; rewrite H in E; discriminate E
  end.

(** C4, as the code has it.  On response bytes that carry the marker
    bits of the mask test: a phase-1 byte [0x12] (flags [0x00]) gives
    [status_ready] and only the phase-1 command is written; phase-1
    [0x3a] (flags [0x28]) with phase-2 [0x16] (flag [0x04]) gives
    [status_cover_open]; phase-1 [0x3a] with phase-2 [0x12] (no flag)
    gives the unrecognised status of both bytes.  The bytes [0x00] and
    [0x28] themselves fail the mask test and give
    [status_no_response]. *)
Theorem marked_byte_examples :
  (forall env s r2, responds env s [x12] r2 ->
     run_of (fetch_status env) s = Normal status_ready /\
     writes (trace_of (fetch_status env) s) = [DLE_EOT_1]) /\
  (forall env s, responds env s [x3a] [x16] ->
     run_of (fetch_status env) s = Normal status_cover_open) /\
  (forall env s, responds env s [x3a] [x12] ->
     run_of (fetch_status env) s = Normal (unrecognised 0x3a 0x12)) /\
  (forall env s r2, responds env s [x00] r2 ->
     run_of (fetch_status env) s = Normal status_no_response) /\
  (forall env s r2, responds env s [x28] r2 ->
     run_of (fetch_status env) s = Normal status_no_response).
Proof.
  split; [|split; [|split; [|split]]].
  all: intros env s; intros;
    match goal with H : responds _ _ _ _ |- _ =>
      destruct H as (Hall & (d1 & H1 & F1) & (d2 & H2 & F2)) end.
  all: revert H1 H2; fs_cases env s; cbn [dev_ops Nat.add]; intros H1 H2.
  all: try all_ok Hall.
  all: repeat match goal with
       | E : dev ?e ?k = io_ok ?a, H : dev ?e ?k = io_ok ?b |- _ =>
           rewrite E in H; injection H as H; subst b
       end.
  all: subst.
  all: repeat match goal with H : firstn 32 _ = _ |- _ => rewrite H in * end.
  all: repeat match goal with
       | H : _find_dle_eot_response (_ :: _) = _ |- _ =>
           cbn in H; first [discriminate H | injection H as H; subst]
       | H : truthy (N.land (N.pos _) _) = _ |- _ =>
           vm_compute in H; first [discriminate H | clear H]
       end.
  all: try split; reflexivity.
Qed.

Lemma responds_answering (r1 r2 : bytes) :
  List.length r1 <= 32 -> List.length r2 <= 32 ->
  responds (quiet_env (answering r1 r2)) init r1 r2.
Proof.
  intros L1 L2. split; [|split].
  - intros i. unfold quiet_env, answering, scripted. simpl.
    do 15 (destruct i as [|i]; [eexists; reflexivity|]).
    destruct i; eexists; reflexivity.
  - exists r1. split; [reflexivity|]. apply firstn_all2. exact L1.
  - exists r2. split; [reflexivity|]. apply firstn_all2. exact L2.
Qed.

Lemma marked_byte_examples_witness :
  responds env_cover_open init [x3a] [x16] /\
  run_of (fetch_status env_cover_open) init = Normal status_cover_open.
Proof.
  assert (H : responds env_cover_open init [x3a] [x16]).
  { apply responds_answering; simpl; lia. }
  split; [exact H|].
  exact (proj1 (proj2 marked_byte_examples) env_cover_open init H).
Defined.

(** C4, as stated, fails: a phase-1 read of the byte [0x00] does not give
    [status_ready], and [0x28] followed by [0x04] does not give
    [status_cover_open]; both give [status_no_response]. *)
Lemma raw_byte_examples_counterexample :
  run_of (fetch_status env_raw_ready) init <> Normal status_ready /\
  run_of (fetch_status env_raw_cover_open) init <> Normal status_cover_open /\
  run_of (fetch_status env_raw_ready) init = Normal status_no_response /\
  run_of (fetch_status env_raw_cover_open) init = Normal status_no_response.
Proof.
  repeat split; vm_compute; discriminate.
Qed.

(** ** Publishing the status *)

Lemma Status_eqb_eq (a b : Status) : Status_eqb a b = true <-> a = b.
Proof.
  destruct a as [ta oa], b as [tb ob]. unfold Status_eqb. simpl.
  rewrite andb_true_iff, String.eqb_eq, Bool.eqb_true_iff.
  split; [intros [-> ->]; reflexivity | intros H; injection H; auto].
Qed.

Lemma published_app (a b : list event) :
  published (a ++ b) = (published a ++ published b)%list.
Proof.
  induction a as [|e a IH]; [reflexivity|].
  destruct e; simpl; rewrite ?IH; reflexivity.
Qed.

Lemma check_printer_status_step (env : Env) (cfg : Config) (s : State) :
  exists st,
    run_of (fetch_status env) s = Normal st /\
    run_of (check_printer_status env cfg) s = Normal tt /\
    published (trace_of (check_printer_status env cfg) s)
    = (if Status_eqb st (current_status s) then []
       else [(status_topic cfg, status_payload st, true)]) /\
    current_status (state_of (check_printer_status env cfg) s)
    = (if Status_eqb st (current_status s) then current_status s else st).
Proof.
  destruct (fetch_status_frame env s) as (st & k & t & E & Hp & _).
  exists st. unfold run_of, trace_of, state_of.
  unfold check_printer_status, call_proc, check_printer_status_body, bind.
  rewrite E. cbn [get put emit pure fst snd with_dev_ops current_status].
  destruct (Status_eqb st (current_status s)); cbn.
  - rewrite app_nil_r. auto.
  - rewrite published_app, Hp. auto.
Qed.

(** C8.  [check_printer_status] fetches a status [st], which is never
    [status_offline], and publishes it (on the status topic, retained)
    exactly when it differs from the stored status, the comparison being
    equality of text and [ok]; the stored status becomes [st] exactly
    then, so that it is [st] after the call in both cases.  A second call
    that fetches the same status again publishes nothing. *)
Theorem check_printer_status_publishes (env : Env) (cfg : Config) (s : State) :
  (forall a b, Status_eqb a b = true <-> a = b) /\
  exists st,
    run_of (fetch_status env) s = Normal st /\
    st <> status_offline /\
    run_of (check_printer_status env cfg) s = Normal tt /\
    published (trace_of (check_printer_status env cfg) s)
    = (if Status_eqb st (current_status s) then []
       else [(status_topic cfg, status_payload st, true)]) /\
    current_status (state_of (check_printer_status env cfg) s)
    = (if Status_eqb st (current_status s) then current_status s else st) /\
    current_status (state_of (check_printer_status env cfg) s) = st /\
    exists st',
      run_of (fetch_status env) (state_of (check_printer_status env cfg) s)
      = Normal st' /\
      published
        (trace_of (check_printer_status env cfg)
           (state_of (check_printer_status env cfg) s))
      = (if Status_eqb st' st then []
         else [(status_topic cfg, status_payload st', true)]).
Proof.
  split; [exact Status_eqb_eq|].
  destruct (check_printer_status_step env cfg s) as (st & F & R & P & C).
  assert (C' : current_status (state_of (check_printer_status env cfg) s) = st).
  { rewrite C. destruct (Status_eqb st (current_status s)) eqn:E; [|reflexivity].
    apply Status_eqb_eq in E. auto. }
  exists st. repeat split; auto.
  - intros ->. apply (fetch_status_not_offline env s F).
  - destruct (check_printer_status_step env cfg
                (state_of (check_printer_status env cfg) s))
      as (st' & F' & _ & P' & _).
    exists st'. split; [exact F'|]. rewrite P', C'. reflexivity.
Qed.

(** The first check after start-up publishes; an unchanged printer is
    not announced again. *)
Example check_printer_status_twice :
  published (trace_of (check_printer_status env_shop shop_cfg) init)
  = [("shop/status", status_payload status_ready, true)] /\
  published
    (trace_of (check_printer_status env_shop shop_cfg)
       (state_of (check_printer_status env_shop shop_cfg) init))
  = [].
Proof. split; reflexivity. Qed.

(** ** Inbound print requests *)

(** C6, as the code has it.  A payload on which [json.loads] raises
    [JSONDecodeError] is dropped: nothing is published and the state is
    unchanged.  For a
    JSON object: without the key [jobid] it is dropped likewise; with
    [jobid] but without [data] one failure result "Aborted: missing data"
    is published and the state is unchanged; when [b64decode] raises on
    the value of [data], one failure result with the error is published
    and the state is unchanged; otherwise the pair of [str] of the job
    id and the decoded bytes is appended to the queue and nothing is
    published. *)
Theorem on_print_message_cases (env : Env) (cfg : Config)
    (msg : bytes) (s : State) :
  match json_loads env msg with
  | loads_raises JSONDecodeError =>
      on_print_message env cfg msg s = (Normal tt, s, [])
  | loads_value (PyDict items) =>
      match dict_get items "jobid" with
      | None => on_print_message env cfg msg s = (Normal tt, s, [])
      | Some j =>
          match dict_get items "data" with
          | None =>
              on_print_message env cfg msg s
              = (Normal tt, s,
                 [printed_result cfg (py_str env j)
                    "Aborted: missing data" false])
          | Some d =>
              match b64decode env d with
              | inl e =>
                  on_print_message env cfg msg s
                  = (Normal tt, s,
                     [printed_result cfg (py_str env j)
                        ("Error decoding data: e=" ++ e) false])
              | inr data =>
                  on_print_message env cfg msg s
                  = (Normal tt,
                     set_print_queue s
                       (print_queue s ++ [(py_str env j, data)]),
                     [])
              end
          end
      end
  | _ => True
  end.
Proof.
  unfold on_print_message, call_proc, on_print_message_body.
  unfold bind, try_except, lift, py_contains, py_getitem, pure, return_, raise,
    send_print_status, emit, get, put, printed_result.
  destruct (json_loads env msg) as [v|e].
  - destruct v; try exact I.
    destruct (dict_get items "jobid") as [j|]; [|reflexivity].
    destruct (dict_get items "data") as [d|]; [|reflexivity].
    destruct (b64decode env d) as [e|data]; reflexivity.
  - destruct e; try exact I. reflexivity.
Qed.

(** C6, as stated, fails in two places.  Data that is not base64 text
    is decoded all the same, with the characters outside the alphabet
    left out: the job is queued and no failure result is published.  And
    a payload that is not UTF-8, hence not JSON, is not passed over: the
    exception of [json.loads] is not the one the handler names, leaves
    the callback and ends the loop. *)
Lemma print_request_counterexample :
  valid_base64 "aGVsbG8=" = true /\
  valid_base64 "aGVs*bG8=!" = false /\
  on_print_message env_lenient shop_cfg starred_message init
  = (Normal tt, set_print_queue init [("7", hello)], []) /\
  on_print_message env_lenient shop_cfg not_utf8 init
  = (Raised
       (OtherException
          "UnicodeDecodeError('utf-8', b'\xff', 0, 1, 'invalid start byte')"),
     init, []) /\
  run_of (run env_lenient shop_cfg 1 1) init
  = Raised
      (OtherException
         "UnicodeDecodeError('utf-8', b'\xff', 0, 1, 'invalid start byte')").
Proof.
  repeat split.
Qed.

(** The message of the shop is queued under the job id "7". *)
Example on_print_message_hello :
  on_print_message env_shop shop_cfg hello_message init
  = (Normal tt, set_print_queue init [("7", hello)], []).
Proof. reflexivity. Qed.

(** A JSON value that is not an object is outside the cases above: a
    number makes the membership test raise. *)
Example on_print_message_number (env : Env) (msg : bytes) :
  json_loads env msg = loads_value (PyInt 5) ->
  run_of (on_print_message env shop_cfg msg) init
  = Raised (TypeError "TypeError(argument is not iterable)").
Proof.
  intros H. unfold run_of, on_print_message, call_proc, on_print_message_body.
  unfold bind, try_except. rewrite H. reflexivity.
Qed.

(** ** The job step of the loop *)

Lemma run_print_job_empty (env : Env) (cfg : Config) (s : State) :
  print_queue s = [] -> run_print_job env cfg s = (Normal tt, s, []).
Proof.
  intros H. unfold run_print_job, bind, get. rewrite H. reflexivity.
Qed.

Lemma run_print_job_step (env : Env) (cfg : Config) (s : State)
    (jobid : string) (data : bytes) (rest : list (string * bytes)) :
  print_queue s = (jobid, data) :: rest ->
  exists st s1 t1 t2,
    fetch_status env (set_print_queue s rest) = (Normal st, s1, t1) /\
    run_of (run_print_job env cfg) s = Normal tt /\
    trace_of (run_print_job env cfg) s = (t1 ++ t2)%list /\
    print_queue (state_of (run_print_job env cfg) s) = rest /\
    ((ok st = false /\
      t2 = [printed_result cfg jobid (status st) false])
     \/
     (ok st = true /\
      t2 = [EvOpen mode_ab; EvWrite data;
            printed_result cfg jobid "Printed" true; EvClose])
     \/
     (ok st = true /\
      exists pre e,
        io_failed pre = true /\ last_io_error pre = Some e /\
        t2 = (pre ++ [printed_result cfg jobid
                        ("Print failed: e=" ++ e) false])%list)).
Proof.
  intros Hq.
  destruct (fetch_status_frame env (set_print_queue s rest))
    as (st & k & t1 & E & _ & _).
  exists st, (with_dev_ops (set_print_queue s rest) k), t1.
  unfold run_of, trace_of, state_of, run_print_job, bind, get.
  rewrite Hq. cbn [put]. rewrite E.
  destruct (ok st) eqn:Hok.
  - unfold try_except, with_open, file_open, file_write, file_close, bind,
      send_print_status, emit.
    cbn [dev_ops with_dev_ops next_dev_op].
    destruct (dev env k) as [d0|e0]; cbn -[app].
    2:{ eexists; repeat split; try reflexivity.
        right; right; split; [reflexivity|].
        exists [EvIOError op_open e0], e0. repeat split. }
    destruct (dev env (S k)) as [d1|e1]; cbn -[app].
    + destruct (dev env (S (S k))) as [d2|e2]; cbn -[app].
      * eexists; repeat split; try reflexivity.
        right; left; split; reflexivity.
      * eexists; repeat split; try reflexivity.
        right; right; split; [reflexivity|].
        exists [EvOpen mode_ab; EvWrite data;
                printed_result cfg jobid "Printed" true;
                EvIOError op_close e2], e2. repeat split.
    + destruct (dev env (S (S k))) as [d2|e2]; cbn -[app].
      * eexists; repeat split; try reflexivity.
        right; right; split; [reflexivity|].
        exists [EvOpen mode_ab; EvIOError op_write e1; EvClose], e1.
        repeat split.
      * eexists; repeat split; try reflexivity.
        right; right; split; [reflexivity|].
        exists [EvOpen mode_ab; EvIOError op_write e1;
                EvIOError op_close e2], e2.
        repeat split.
  - unfold send_print_status, emit. cbn -[app].
    eexists; repeat split; try reflexivity. left; split; reflexivity.
Qed.

Lemma run_print_job_queue (env : Env) (cfg : Config) (s : State) :
  run_of (run_print_job env cfg) s = Normal tt /\
  print_queue (state_of (run_print_job env cfg) s) = tl (print_queue s).
Proof.
  destruct (print_queue s) as [|[jobid data] rest] eqn:Hq.
  - unfold run_of, state_of. rewrite (run_print_job_empty env cfg s Hq).
    simpl. auto.
  - destruct (run_print_job_step env cfg s jobid data rest Hq)
      as (st & s1 & t1 & t2 & _ & R & _ & Q & _).
    simpl. auto.
Qed.


Lemma trace_emit_bind {R A} (e : event) (m : M R A) (s : State) :
  trace_of (bind (emit e) (fun _ => m)) s = e :: trace_of m s.
Proof.
  unfold trace_of, bind, emit. destruct (m s) as [[o s1] t1]. reflexivity.
Qed.

Lemma trace_bind_prefix {R A B} (m : M R A) (k : A -> M R B) (s : State) :
  exists t', trace_of (bind m k) s = (trace_of m s ++ t')%list.
Proof.
  unfold trace_of, bind. destruct (m s) as [[o s1] t1].
  destruct o as [a| | |]; simpl;
    try (exists []; rewrite app_nil_r; reflexivity).
  destruct (k a s1) as [[o2 s2] t2]. exists t2. reflexivity.
Qed.

(** One job, evaluated: the status query, then the write and its
    result. *)
Example run_print_job_hello :
  trace_of (run_print_job env_ready shop_cfg) one_job
  = (phase1_trace [x00] [x12]
     ++ [EvOpen mode_ab; EvWrite hello;
         EvPublish "shop/printed" (printed_payload "7" "Printed" true true) false;
         EvClose])%list.
Proof. reflexivity. Qed.

(** When closing the device fails after the write, the success result has
    already been published and a failure result follows it. *)
Example run_print_job_close_fails :
  published
    (trace_of (run_print_job (quiet_env (failing_at 11 [x12] [])) shop_cfg)
       one_job)
  = [("shop/printed", printed_payload "7" "Printed" true true, false);
     ("shop/printed",
      printed_payload "7"
        "Print failed: e=OSError(5, Input/output error)" true false, false)].
Proof. reflexivity. Qed.

(** ** Reconnecting *)

Lemma run_reconnect_connected (env : Env) (fuel : nat) (s : State) :
  connected s = true -> run_reconnect env fuel s = (Normal tt, s, []).
Proof.
  intros H. destruct fuel; simpl; unfold bind, get; rewrite H; reflexivity.
Qed.

Lemma run_reconnect_refused (env : Env) (fuel : nat) (s : State) :
  connected s = false ->
  broker env (reconnects s) = reconnect_refused ->
  run_reconnect env (S fuel) s
  = (let '(o, s', t) := run_reconnect env fuel (next_reconnect s) in
     (o, s', EvReconnect reconnect_refused :: EvSleep 1000 :: t)).
Proof.
  intros Hc Hb. simpl. unfold bind at 1. unfold get at 1. rewrite Hc.
  unfold bind at 1. unfold try_except, bind, mqttc_reconnect. rewrite Hb.
  cbn [is_ConnectionRefusedError sleep emit app].
  destruct (run_reconnect env fuel (next_reconnect s)) as [[o s'] t].
  reflexivity.
Qed.

Lemma run_reconnect_accepted (env : Env) (fuel : nat) (s : State) :
  connected s = false ->
  broker env (reconnects s) = reconnect_ok ->
  run_reconnect env (S fuel) s
  = (Normal tt, set_connected (next_reconnect s) true,
     [EvReconnect reconnect_ok]).
Proof.
  intros Hc Hb. simpl. unfold bind at 1. unfold get at 1. rewrite Hc.
  unfold bind at 1. unfold try_except, bind, mqttc_reconnect. rewrite Hb.
  cbn [get put pure app].
  rewrite run_reconnect_connected by reflexivity. reflexivity.
Qed.

Lemma run_reconnect_until_accepted (env : Env) : forall k fuel s,
  connected s = false ->
  (forall i, i < k -> broker env (reconnects s + i) = reconnect_refused) ->
  broker env (reconnects s + k) = reconnect_ok ->
  k < fuel ->
  run_of (run_reconnect env fuel) s = Normal tt /\
  connected (state_of (run_reconnect env fuel) s) = true /\
  trace_of (run_reconnect env fuel) s
  = (retries k ++ [EvReconnect reconnect_ok])%list.
Proof.
  induction k as [|k IH]; intros fuel s Hc Href Hok Hfuel.
  - destruct fuel as [|fuel]; [lia|].
    rewrite Nat.add_0_r in Hok.
    unfold run_of, state_of, trace_of.
    rewrite (run_reconnect_accepted env fuel s Hc Hok). simpl. auto.
  - destruct fuel as [|fuel]; [lia|].
    assert (Hb : broker env (reconnects s) = reconnect_refused).
    { rewrite <- (Nat.add_0_r (reconnects s)). apply Href. lia. }
    unfold run_of, state_of, trace_of.
    rewrite (run_reconnect_refused env fuel s Hc Hb).
    destruct (IH fuel (next_reconnect s)) as (R & C & T).
    + exact Hc.
    + intros i Hi. simpl. rewrite <- Nat.add_succ_r. apply Href. lia.
    + simpl. rewrite <- Nat.add_succ_r. exact Hok.
    + lia.
    + unfold run_of, state_of, trace_of in R, C, T.
      destruct (run_reconnect env fuel (next_reconnect s)) as [[o s'] t].
      simpl in *. subst. repeat split; auto.
Qed.

Lemma run_reconnect_never_accepted (env : Env) : forall fuel s,
  connected s = false ->
  (forall i, broker env (reconnects s + i) = reconnect_refused) ->
  run_of (run_reconnect env fuel) s = OutOfFuel /\
  trace_of (run_reconnect env fuel) s = retries fuel.
Proof.
  induction fuel as [|fuel IH]; intros s Hc Href.
  - unfold run_of, trace_of. simpl. unfold bind, get. rewrite Hc. auto.
  - assert (Hb : broker env (reconnects s) = reconnect_refused).
    { rewrite <- (Nat.add_0_r (reconnects s)). apply Href. }
    unfold run_of, trace_of.
    rewrite (run_reconnect_refused env fuel s Hc Hb).
    destruct (IH (next_reconnect s)) as (R & T).
    + exact Hc.
    + intros i. simpl. rewrite <- Nat.add_succ_r. apply Href.
    + unfold run_of, trace_of in R, T.
      destruct (run_reconnect env fuel (next_reconnect s)) as [[o s'] t].
      simpl in *. subst. auto.
Qed.

(** ** The watchdog signal

    Only the first statement of a round signals the watchdog: every other
    block of the program is [quiet], which is shown block by block. *)

Lemma notifications_app (a b : list event) :
  notifications (a ++ b) = notifications a + notifications b.
Proof.
  induction a as [|e a IH]; [reflexivity|].
  destruct e; simpl; rewrite ?IH; reflexivity.
Qed.

Lemma quiet_pure {R A} (a : A) : quiet (@pure R A a).
Proof. intros s. reflexivity. Qed.

Lemma quiet_return {R A} (r : R) : quiet (@return_ R A r).
Proof. intros s. reflexivity. Qed.

Lemma quiet_raise {R A} (e : exn) : quiet (@raise R A e).
Proof. intros s. reflexivity. Qed.

Lemma quiet_get {R} : quiet (@get R).
Proof. intros s. reflexivity. Qed.

Lemma quiet_put {R} (s' : State) : quiet (@put R s').
Proof. intros s. reflexivity. Qed.

Lemma quiet_bind {R A B} (m : M R A) (k : A -> M R B) :
  quiet m -> (forall a, quiet (k a)) -> quiet (bind m k).
Proof.
  intros Hm Hk s. specialize (Hm s). unfold trace_of, bind in *.
  destruct (m s) as [[o s1] t1]. simpl in Hm.
  destruct o as [a|r|e|]; simpl; auto.
  specialize (Hk a s1). unfold trace_of in Hk.
  destruct (k a s1) as [[o2 s2] t2]. simpl in *.
  rewrite notifications_app. lia.
Qed.

Lemma quiet_try_except {R A} (body : M R A) (c : exn -> bool)
    (h : exn -> M R A) :
  quiet body -> (forall e, quiet (h e)) -> quiet (try_except body c h).
Proof.
  intros Hm Hk s. specialize (Hm s). unfold trace_of, try_except in *.
  destruct (body s) as [[o s1] t1]. simpl in Hm.
  destruct o as [a|r|e|]; simpl; auto.
  destruct (c e); simpl; auto.
  specialize (Hk e s1). unfold trace_of in Hk.
  destruct (h e s1) as [[o2 s2] t2]. simpl in *.
  rewrite notifications_app. lia.
Qed.

Lemma quiet_call_proc {X} (body : M unit unit) :
  quiet body -> quiet (@call_proc X body).
Proof.
  intros Hm s. specialize (Hm s). unfold trace_of, call_proc in *.
  destruct (body s) as [[o s1] t1]. destruct o; exact Hm.
Qed.

Lemma quiet_fetch_status (env : Env) : quiet (fetch_status env).
Proof.
  intros s. destruct (fetch_status_frame env s) as (st & k & t & E & _ & N).
  unfold trace_of. rewrite E. exact N.
Qed.

Lemma quiet_with_open {R A} (env : Env) (m : file_mode) (body : M R A) :
  quiet body -> quiet (with_open env m body).
Proof.
  intros Hm s. unfold trace_of, with_open, file_open, file_close.
  destruct (dev env (dev_ops s)); simpl; auto.
  specialize (Hm (next_dev_op s)). unfold trace_of in Hm.
  destruct (body (next_dev_op s)) as [[o s2] t2]. simpl in Hm.
  destruct (dev env (dev_ops s2)); simpl; rewrite notifications_app, Hm;
    reflexivity.
Qed.

Lemma quiet_file_write {R} (env : Env) (d : bytes) :
  quiet (@file_write env R d).
Proof.
  intros s. unfold trace_of, file_write.
  destruct (dev env (dev_ops s)); reflexivity.
Qed.

Lemma quiet_send_print_status (cfg : Config) (j m : string) (f x : bool) :
  quiet (send_print_status cfg j m f x).
Proof. intros s. reflexivity. Qed.

Lemma quiet_lift {R A} (v : exn + A) : quiet (@lift R A v).
Proof. destruct v; intros s; reflexivity. Qed.

Lemma quiet_mqttc_reconnect (env : Env) : quiet (mqttc_reconnect env).
Proof.
  intros s. unfold trace_of, mqttc_reconnect.
  destruct (broker env (reconnects s)); reflexivity.
Qed.

Create HintDb quiet.

#[local] Hint Resolve quiet_mqttc_reconnect quiet_pure quiet_return
  quiet_raise quiet_get quiet_put quiet_fetch_status quiet_file_write
  quiet_send_print_status quiet_lift : quiet.

Ltac quiet_steps :=
  repeat first
    [ apply quiet_bind; [|intros ?]
    | apply quiet_try_except; [|intros ?]
    | apply quiet_call_proc
    | apply quiet_with_open
    | solve [auto with quiet]
    | match goal with |- quiet (if ?b then _ else _) => destruct b end
    | match goal with |- quiet (match ?x with _ => _ end) => destruct x end
    | solve [intros ?; reflexivity] ].

Lemma quiet_dispatch_all (env : Env) (cfg : Config) (l : list inbound) :
  quiet (dispatch_all env cfg l).
Proof.
  induction l as [|i l IH]; simpl; [apply quiet_pure|].
  apply quiet_bind; [|intros _; exact IH].
  destruct i; simpl;
    unfold on_connect, on_connect_body, on_print_message, on_print_message_body;
    quiet_steps.
Qed.

#[local] Hint Resolve quiet_dispatch_all : quiet.

Lemma quiet_run_print_job (env : Env) (cfg : Config) :
  quiet (run_print_job env cfg).
Proof.
  unfold run_print_job. quiet_steps.
Qed.

Lemma quiet_run_reconnect (env : Env) (fuel : nat) :
  quiet (run_reconnect env fuel).
Proof.
  induction fuel as [|fuel IH]; simpl; quiet_steps.
Qed.

Lemma quiet_run_poll (env : Env) (cfg : Config) (d : Z) :
  quiet (run_poll env cfg d).
Proof.
  unfold run_poll. quiet_steps.
Qed.

Lemma run_iteration_watchdog (env : Env) (cfg : Config) (fuel : nat)
    (d : Z) (s : State) :
  notifications (trace_of (run_iteration env cfg fuel d) s) = 1 /\
  exists rest,
    trace_of (run_iteration env cfg fuel d) s = EvNotify "WATCHDOG=1" :: rest.
Proof.
  assert (Q : quiet (bind (run_print_job env cfg) (fun _ =>
                    bind (run_reconnect env fuel)
                      (fun _ => run_poll env cfg d)))).
  { apply quiet_bind; [apply quiet_run_print_job|intros _].
    apply quiet_bind; [apply quiet_run_reconnect|intros _].
    apply quiet_run_poll. }
  unfold run_iteration. rewrite trace_emit_bind. simpl. rewrite (Q s).
  split; [reflexivity|eexists; reflexivity].
Qed.

(** ** Losing the connection *)

Lemma bind_normal {R A B} (m : M R A) (k : A -> M R B) (s : State) (b : B) :
  run_of (bind m k) s = Normal b ->
  exists a,
    run_of m s = Normal a /\
    run_of (k a) (state_of m s) = Normal b /\
    state_of (bind m k) s = state_of (k a) (state_of m s).
Proof.
  unfold run_of, state_of, bind. destruct (m s) as [[o s1] t1].
  destruct o as [a| | |]; simpl; try discriminate.
  destruct (k a s1) as [[o2 s2] t2] eqn:E. simpl. intros ->. exists a.
  rewrite E. auto.
Qed.

Lemma check_printer_status_loops (env : Env) (cfg : Config) (s : State) :
  exists s' t,
    check_printer_status env cfg s = (Normal tt, s', t) /\
    loops s' = loops s.
Proof.
  destruct (fetch_status_frame env s) as (st & k & t & E & _ & _).
  unfold check_printer_status, call_proc, check_printer_status_body, bind.
  rewrite E. cbn [get put emit pure].
  destruct (negb (Status_eqb st (current_status (with_dev_ops s k))));
    do 2 eexists; split; reflexivity.
Qed.

Lemma run_wait_lost (env : Env) (cfg : Config) (timeout : Z) (s : State) :
  snd (network env (loops s)) = MQTT_ERR_CONN_LOST ->
  run_of (run_wait env cfg timeout) s = Normal tt ->
  connected (state_of (run_wait env cfg timeout) s) = false.
Proof.
  intros Hn H. unfold run_wait in *.
  apply bind_normal in H. destruct H as (rc & Hrc & _ & ->).
  assert (rc = MQTT_ERR_CONN_LOST) as ->.
  { revert Hrc. unfold run_of, mqttc_loop, bind, get, put, emit, pure.
    destruct (dispatch_all env cfg (fst (network env (loops s))) (next_loop s))
      as [[o s1] t1].
    destruct o; simpl; intros E; try discriminate E.
    injection E as <-. exact Hn. }
  reflexivity.
Qed.

Lemma run_poll_connection_lost (env : Env) (cfg : Config) (d : Z)
    (s : State) (d' : Z) :
  connected s = true ->
  snd (network env (loops s)) = MQTT_ERR_CONN_LOST ->
  run_of (run_poll env cfg d) s = Normal d' ->
  connected (state_of (run_poll env cfg d) s) = false.
Proof.
  intros Hc Hn H. unfold run_poll in *.
  apply bind_normal in H. destruct H as (s0 & Hs0 & H & ->).
  injection Hs0 as <-. change (state_of get s) with s in *.
  rewrite Hc in *.
  apply bind_normal in H. destruct H as (now & _ & H & ->).
  change (state_of (time_time env) s) with (next_clock_read s) in *.
  apply bind_normal in H. destruct H as (dl & Hdl & H & ->).
  apply bind_normal in H. destruct H as ([] & Hw & _ & ->).
  change (state_of (pure dl) ?x) with x.
  apply run_wait_lost; [|exact Hw].
  rewrite <- Hn. f_equal.
  destruct (Z.leb d now).
  - unfold state_of, bind.
    destruct (check_printer_status_loops env cfg (next_clock_read s))
      as (s2 & t2 & E & Hl).
    rewrite E. simpl. rewrite Hl. reflexivity.
  - reflexivity.
Qed.

(** ** Two rounds of the shop

    The first round connects, announces the printer ready and receives
    the message; the second prints it. *)
Example run_shop :
  published (trace_of (run env_shop shop_cfg 2 5) init)
  = [("shop/status", status_payload status_ready, true);
     ("shop/printed", printed_payload "7" "Printed" true true, false)] /\
  writes (trace_of (run env_shop shop_cfg 2 5) init)
  = [DLE_EOT_1; DLE_EOT_1; hello] /\
  notifications (trace_of (run env_shop shop_cfg 2 5) init) = 2 /\
  print_queue (state_of (run env_shop shop_cfg 2 5) init) = [].
Proof. repeat split. Qed.

(** * Further properties *)

(** ** Scanning a response *)

(** X2.  Scanning two chunks in a row is scanning the first and, only
    when it holds no accepted byte, the second: bytes after an accepted
    byte never change the answer. *)
Theorem find_dle_eot_response_app (a b : bytes) :
  _find_dle_eot_response (a ++ b)
  = match _find_dle_eot_response a with
    | Some n => Some n
    | None => _find_dle_eot_response b
    end.
Proof.
  induction a as [|x a IH]; [reflexivity|].
  simpl. destruct (N.eqb (N.land (Byte.to_N x) 147) 18); [reflexivity|exact IH].
Qed.

Lemma accepted_find (r : bytes) (n : N) :
  accepted r n -> _find_dle_eot_response r = Some n.
Proof.
  intros (pre & b & post & -> & Hpre & Hb & ->).
  induction pre as [|x pre IH]; simpl.
  - unfold mask_test in Hb. rewrite Hb. reflexivity.
  - assert (Hx : mask_test x = false) by (apply Hpre; left; reflexivity).
    unfold mask_test in Hx. rewrite Hx. apply IH.
    intros y Hy. apply Hpre. right. exact Hy.
Qed.

Lemma no_response_find (r : bytes) :
  no_response r -> _find_dle_eot_response r = None.
Proof.
  induction r as [|x r IH]; intros H; [reflexivity|].
  simpl. assert (Hx : mask_test x = false) by (apply H; left; reflexivity).
  unfold mask_test in Hx. rewrite Hx. apply IH.
  intros y Hy. apply H. right. exact Hy.
Qed.

(** X1.  [_find_dle_eot_response] returns [n] exactly when [n] is the
    value of the first byte that passes the mask test, and [None]
    exactly when no byte passes it. *)
Theorem find_dle_eot_response_first_match (r : bytes) :
  (forall n, _find_dle_eot_response r = Some n <-> accepted r n) /\
  (_find_dle_eot_response r = None <-> no_response r).
Proof.
  split.
  - intros n. split; [apply find_Some_accepted|apply accepted_find].
  - split; [apply find_None_no_response|apply no_response_find].
Qed.

Lemma mask_test_values (b : byte) :
  mask_test b = true ->
  N.land (Byte.to_N b) 0x93 = 0x12%N /\
  (Byte.to_N b < 128)%N /\
  N.lor 0x12 (N.land (Byte.to_N b) 0x6c) = Byte.to_N b.
Proof.
  destruct b; vm_compute; intros H; try discriminate H; repeat split.
Qed.

(** X3.  An accepted value is the value of a byte of the input, has
    exactly the marker bits of [0x93] that make [0x12], is below 128,
    and is [0x12] with some of the flag bits [0x04], [0x08], [0x20],
    [0x40] added. *)
Theorem find_dle_eot_response_range (r : bytes) (n : N) :
  _find_dle_eot_response r = Some n ->
  (exists b, In b r /\ n = Byte.to_N b) /\
  N.land n 0x93 = 0x12%N /\ (n < 128)%N /\
  N.lor 0x12 (N.land n 0x6c) = n.
Proof.
  intros H. apply find_Some_accepted in H.
  destruct H as (pre & b & post & -> & _ & Hb & ->).
  split.
  - exists b. split; [|reflexivity]. apply in_or_app. right. left. reflexivity.
  - apply mask_test_values. exact Hb.
Qed.

Lemma find_dle_eot_response_range_witness :
  _find_dle_eot_response [x00; xff; x3a; x12] = Some 58%N /\
  (exists b, In b [x00; xff; x3a; x12] /\ 58%N = Byte.to_N b) /\
  N.land 58 0x93 = 0x12%N /\ (58 < 128)%N /\
  N.lor 0x12 (N.land 58 0x6c) = 58%N.
Proof.
  split; [reflexivity|].
  apply (find_dle_eot_response_range [x00; xff; x3a; x12] 58). reflexivity.
Defined.

(** ** Opening without creating *)

(** X4.  The flags [_nocreat_opener] hands to [os.open] have no bit of
    [O_CREAT] and agree with the requested flags on every other bit;
    flags without [O_CREAT] pass unchanged, and doing it twice changes
    nothing more. *)
Theorem nocreat_opener_clears_O_CREAT {FD : Type}
    (os_open : string -> Z -> FD) (O_CREAT : Z) (path : string) (flags : Z) :
  exists flags',
    _nocreat_opener os_open O_CREAT path flags = os_open path flags' /\
    Z.land flags' O_CREAT = 0%Z /\
    (forall i, Z.testbit O_CREAT i = false ->
               Z.testbit flags' i = Z.testbit flags i) /\
    (Z.land flags O_CREAT = 0%Z -> flags' = flags) /\
    _nocreat_opener os_open O_CREAT path flags' = os_open path flags'.
Proof.
  exists (Z.land flags (Z.lnot O_CREAT)). split; [reflexivity|].
  assert (B : forall i, Z.testbit (Z.land flags (Z.lnot O_CREAT)) i
                        = Z.testbit flags i && negb (Z.testbit O_CREAT i)).
  { intros i. rewrite Z.land_spec. destruct (Z.ltb_spec i 0) as [Hi|Hi].
    - rewrite (Z.testbit_neg_r flags i Hi). reflexivity.
    - rewrite Z.lnot_spec by exact Hi. reflexivity. }
  split; [|split; [|split]].
  - apply Z.bits_inj'. intros i _. rewrite Z.land_spec, B, Z.bits_0.
    destruct (Z.testbit flags i), (Z.testbit O_CREAT i); reflexivity.
  - intros i Hi. rewrite B, Hi. apply andb_true_r.
  - intros H. apply Z.bits_inj'. intros i _. rewrite B.
    assert (Hb : Z.testbit (Z.land flags O_CREAT) i = false)
      by (rewrite H; apply Z.bits_0).
    rewrite Z.land_spec in Hb.
    destruct (Z.testbit flags i), (Z.testbit O_CREAT i); try reflexivity.
    discriminate Hb.
  - unfold _nocreat_opener. f_equal. apply Z.bits_inj'. intros i _.
    rewrite Z.land_spec, B. destruct (Z.ltb_spec i 0) as [Hi|Hi].
    + rewrite (Z.testbit_neg_r flags i Hi). reflexivity.
    + rewrite Z.lnot_spec by exact Hi.
      destruct (Z.testbit flags i), (Z.testbit O_CREAT i); reflexivity.
Qed.

(** ** More on [fetch_status] *)

(** X5.  [fetch_status] returns [status_not_connected] exactly when a
    file operation of the query failed. *)
Theorem fetch_status_not_connected_iff (env : Env) (s : State) :
  run_of (fetch_status env) s = Normal status_not_connected <->
  io_failed (trace_of (fetch_status env) s) = true.
Proof.
  fs_cases env s.
  all: cbv [io_failed existsb is_io_error orb].
  all: split; intros H; first [reflexivity | discriminate H].
Qed.

Lemma accepted_no_flags (r : bytes) (n : N) :
  accepted r n ->
  N.land n 0x04 = 0%N -> N.land n 0x08 = 0%N ->
  N.land n 0x20 = 0%N -> N.land n 0x40 = 0%N ->
  n = 0x12%N.
Proof.
  intros (pre & b & post & _ & _ & Hb & ->). revert Hb.
  destruct b; vm_compute; intros H; try discriminate H; intros;
    first [reflexivity | discriminate].
Qed.

Lemma accepted_mask (r : bytes) (n : N) :
  accepted r n -> N.land n 0x93 = 0x12%N.
Proof.
  intros (pre & b & post & _ & _ & Hb & ->).
  apply mask_test_values. exact Hb.
Qed.

(** X6.  A status that [fetch_status] returns is one of seven
    class-level statuses, never [status_offline], or the unrecognised
    status; in the latter the second byte is always [0x12] and the first
    an accepted byte with a bit of [0x28] set. *)
Theorem fetch_status_range (env : Env) (s : State) (st : Status) :
  run_of (fetch_status env) s = Normal st ->
  In st [status_no_response; status_ready; status_cover_open;
         status_paper_being_fed; status_oop; status_error;
         status_not_connected]
  \/
  exists v1,
    st = unrecognised v1 0x12 /\
    N.land v1 0x93 = 0x12%N /\ N.land v1 0x28 <> 0%N.
Proof.
  revert st. fs_cases env s.
  all: intros st E; injection E as <-.
  all: try (left; simpl; tauto).
  right. use_data.
  match goal with
  | H1 : accepted _ ?a, H2 : accepted _ ?b, H4 : N.land ?b 4 = 0%N |- _ =>
      exists a; rewrite (accepted_no_flags _ b H2) by assumption;
      split; [reflexivity|]; split; [exact (accepted_mask _ _ H1)|assumption]
  end.
Qed.

Lemma fetch_status_range_witness :
  run_of (fetch_status env_unrecognised) init = Normal (unrecognised 58 18) /\
  (In (unrecognised 58 18)
      [status_no_response; status_ready; status_cover_open;
       status_paper_being_fed; status_oop; status_error;
       status_not_connected]
   \/
   exists v1,
     unrecognised 58 18 = unrecognised v1 0x12 /\
     N.land v1 0x93 = 0x12%N /\ N.land v1 0x28 <> 0%N).
Proof.
  split; [reflexivity|].
  apply (fetch_status_range env_unrecognised init (unrecognised 58 18)).
  reflexivity.
Defined.

(** X7.  A query changes nothing of the object; it performs between one
    and fifteen operations on the device file, each recorded once, and
    besides them only sleeps of 100 ms. *)
Theorem fetch_status_cursor (env : Env) (s : State) :
  state_of (fetch_status env) s
  = with_dev_ops s (dev_ops s + file_events (trace_of (fetch_status env) s)) /\
  1 <= file_events (trace_of (fetch_status env) s) <= 15 /\
  Forall (fun e => is_file_event e = true \/ e = EvSleep 100)
    (trace_of (fetch_status env) s).
Proof.
  fs_cases env s.
  all: unfold file_events, with_dev_ops; simpl.
  all: rewrite <- ?plus_n_Sm, <- ?plus_n_O.
  all: split; [reflexivity|split; [lia|]].
  all: repeat (apply Forall_cons;
                 [first [left; reflexivity | right; reflexivity]|]).
  all: apply Forall_nil.
Qed.

(** ** Facts that hold of every event of a block *)

Lemma always_pure P {R A} (a : A) : always P (@pure R A a).
Proof. intros s. constructor. Qed.

Lemma always_return P {R A} (r : R) : always P (@return_ R A r).
Proof. intros s. constructor. Qed.

Lemma always_raise P {R A} (e : exn) : always P (@raise R A e).
Proof. intros s. constructor. Qed.

Lemma always_get P {R} : always P (@get R).
Proof. intros s. constructor. Qed.

Lemma always_put P {R} (s' : State) : always P (@put R s').
Proof. intros s. constructor. Qed.

Lemma always_lift P {R A} (v : exn + A) : always P (@lift R A v).
Proof. destruct v; intros s; constructor. Qed.

Lemma always_emit (P : event -> Prop) {R} (e : event) :
  P e -> always P (@emit R e).
Proof. intros H s. repeat constructor. exact H. Qed.

Lemma always_bind P {R A B} (m : M R A) (k : A -> M R B) :
  always P m -> (forall a, always P (k a)) -> always P (bind m k).
Proof.
  intros Hm Hk s. specialize (Hm s). unfold trace_of, bind in *.
  destruct (m s) as [[o s1] t1]. simpl in Hm.
  destruct o as [a|r|e|]; simpl; auto.
  specialize (Hk a s1). unfold trace_of in Hk.
  destruct (k a s1) as [[o2 s2] t2]. simpl in *.
  apply Forall_app. auto.
Qed.

Lemma always_try_except P {R A} (body : M R A) (c : exn -> bool)
    (h : exn -> M R A) :
  always P body -> (forall e, always P (h e)) -> always P (try_except body c h).
Proof.
  intros Hm Hk s. specialize (Hm s). unfold trace_of, try_except in *.
  destruct (body s) as [[o s1] t1]. simpl in Hm.
  destruct o as [a|r|e|]; simpl; auto.
  destruct (c e); simpl; auto.
  specialize (Hk e s1). unfold trace_of in Hk.
  destruct (h e s1) as [[o2 s2] t2]. simpl in *.
  apply Forall_app. auto.
Qed.

Lemma always_call_proc P {X} (body : M unit unit) :
  always P body -> always P (@call_proc X body).
Proof.
  intros Hm s. specialize (Hm s). unfold trace_of, call_proc in *.
  destruct (body s) as [[o s1] t1]. destruct o; exact Hm.
Qed.

Lemma always_with_open (P : event -> Prop) {R A} (env : Env)
    (m : file_mode) (body : M R A) :
  (forall e, is_file_event e = true -> P e) ->
  always P body -> always P (with_open env m body).
Proof.
  intros HP Hm s. unfold trace_of, with_open, file_open, file_close.
  destruct (dev env (dev_ops s)); simpl.
  2:{ repeat constructor. apply HP. reflexivity. }
  specialize (Hm (next_dev_op s)). unfold trace_of in Hm.
  destruct (body (next_dev_op s)) as [[o s2] t2]. simpl in Hm.
  destruct (dev env (dev_ops s2)); simpl.
  all: constructor; [apply HP; reflexivity|].
  all: apply Forall_app; split; [exact Hm|].
  all: repeat constructor; apply HP; reflexivity.
Qed.

Lemma always_file_write (P : event -> Prop) {R} (env : Env) (d : bytes) :
  (forall e, is_file_event e = true -> P e) ->
  always P (@file_write env R d).
Proof.
  intros HP s. unfold trace_of, file_write.
  destruct (dev env (dev_ops s)); repeat constructor; apply HP; reflexivity.
Qed.

Lemma fetch_status_events (env : Env) (s : State) :
  Forall (fun e => is_file_event e = true \/ e = EvSleep 100)
    (trace_of (fetch_status env) s).
Proof.
  fs_cases env s.
  all: repeat (apply Forall_cons;
                 [first [left; reflexivity | right; reflexivity]|]).
  all: apply Forall_nil.
Qed.

Lemma always_fetch_status (P : event -> Prop) (env : Env) :
  (forall e, is_file_event e = true -> P e) -> P (EvSleep 100) ->
  always P (fetch_status env).
Proof.
  intros HP Hs s. eapply Forall_impl; [|apply fetch_status_events].
  intros e [H| ->]; auto.
Qed.

Lemma always_send_print_status (P : event -> Prop) (cfg : Config)
    (j m : string) (f x : bool) :
  P (EvPublish (printed_topic cfg) (printed_payload j m f x) false) ->
  always P (send_print_status cfg j m f x).
Proof. intros H. apply always_emit. exact H. Qed.

Lemma always_mqttc_reconnect (P : event -> Prop) (env : Env) :
  (forall r, P (EvReconnect r)) -> always P (mqttc_reconnect env).
Proof.
  intros H s. unfold trace_of, mqttc_reconnect.
  destruct (broker env (reconnects s)); repeat constructor; apply H.
Qed.

Ltac always_steps :=
  repeat first
    [ apply always_pure | apply always_return | apply always_raise
    | apply always_get | apply always_put | apply always_lift
    | apply always_bind; [|intros ?]
    | apply always_try_except; [|intros ?]
    | apply always_call_proc
    | apply always_with_open; [intros [] ?; simpl; first [discriminate | auto]|]
    | apply always_file_write; intros [] ?; simpl; first [discriminate | auto]
    | apply always_fetch_status;
        [intros [] ?; simpl; first [discriminate | auto] | simpl; auto]
    | apply always_send_print_status; simpl; auto
    | apply always_mqttc_reconnect; intros ?; simpl; auto
    | apply always_emit; simpl; auto
    | match goal with |- always _ (if ?b then _ else _) => destruct b end
    | match goal with |- always _ (match ?x with _ => _ end) => destruct x end
    | assumption ].

Lemma always_dispatch_all (P : event -> Prop) (env : Env) (cfg : Config)
    (l : list inbound) :
  (forall j m, P (EvPublish (printed_topic cfg)
                    (printed_payload j m true false) false)) ->
  P (EvSubscribe (print_topic cfg) 0) ->
  always P (dispatch_all env cfg l).
Proof.
  intros HFail HSub.
  induction l as [|i l IH]; simpl; [apply always_pure|].
  apply always_bind; [|intros _; exact IH].
  destruct i; simpl;
    unfold on_connect, on_connect_body, on_print_message, on_print_message_body,
      send_print_status;
    always_steps.
Qed.

Lemma always_dispatch_all_bus (env : Env) (cfg : Config) (l : list inbound) :
  always is_bus_event (dispatch_all env cfg l).
Proof.
  apply always_dispatch_all; [intros j m|]; exact I.
Qed.

(** ** Parts of the state a block leaves alone *)

Lemma keeps_pure {X} (f : State -> X) {R A} (a : A) : keeps f (@pure R A a).
Proof. intros s. reflexivity. Qed.

Lemma keeps_return {X} (f : State -> X) {R A} (r : R) :
  keeps f (@return_ R A r).
Proof. intros s. reflexivity. Qed.

Lemma keeps_raise {X} (f : State -> X) {R A} (e : exn) :
  keeps f (@raise R A e).
Proof. intros s. reflexivity. Qed.

Lemma keeps_lift {X} (f : State -> X) {R A} (v : exn + A) :
  keeps f (@lift R A v).
Proof. destruct v; intros s; reflexivity. Qed.

Lemma keeps_emit {X} (f : State -> X) {R} (e : event) : keeps f (@emit R e).
Proof. intros s. reflexivity. Qed.

Lemma keeps_get_bind {X} (f : State -> X) {R A} (k : State -> M R A) :
  (forall s, f (state_of (k s) s) = f s) -> keeps f (bind get k).
Proof.
  intros H s. specialize (H s). unfold state_of, bind, get in *.
  destruct (k s s) as [[o s1] t1]. destruct o; exact H.
Qed.

Lemma keeps_bind {X} (f : State -> X) {R A B} (m : M R A) (k : A -> M R B) :
  keeps f m -> (forall a, keeps f (k a)) -> keeps f (bind m k).
Proof.
  intros Hm Hk s. specialize (Hm s). unfold state_of, bind in *.
  destruct (m s) as [[o s1] t1]. simpl in Hm.
  destruct o as [a|r|e|]; simpl; auto.
  specialize (Hk a s1). unfold state_of in Hk.
  destruct (k a s1) as [[o2 s2] t2]. simpl in *. congruence.
Qed.

Lemma keeps_try_except {X} (f : State -> X) {R A} (body : M R A)
    (c : exn -> bool) (h : exn -> M R A) :
  keeps f body -> (forall e, keeps f (h e)) -> keeps f (try_except body c h).
Proof.
  intros Hm Hk s. specialize (Hm s). unfold state_of, try_except in *.
  destruct (body s) as [[o s1] t1]. simpl in Hm.
  destruct o as [a|r|e|]; simpl; auto.
  destruct (c e); simpl; auto.
  specialize (Hk e s1). unfold state_of in Hk.
  destruct (h e s1) as [[o2 s2] t2]. simpl in *. congruence.
Qed.

Lemma keeps_call_proc {Y} (f : State -> Y) {X} (body : M unit unit) :
  keeps f body -> keeps f (@call_proc X body).
Proof.
  intros Hm s. specialize (Hm s). unfold state_of, call_proc in *.
  destruct (body s) as [[o s1] t1]. destruct o; exact Hm.
Qed.

Ltac keeps_steps :=
  repeat first
    [ apply keeps_pure | apply keeps_return | apply keeps_raise
    | apply keeps_lift | apply keeps_emit
    | apply keeps_get_bind; intros ?;
        unfold state_of, bind, put, emit; simpl; solve [auto]
    | apply keeps_bind; [|intros ?]
    | apply keeps_try_except; [|intros ?]
    | apply keeps_call_proc
    | match goal with |- keeps _ (if ?b then _ else _) => destruct b end
    | match goal with |- keeps _ (match ?x with _ => _ end) => destruct x end
    | assumption ].

Lemma keeps_dispatch_all {X} (f : State -> X) (env : Env) (cfg : Config)
    (l : list inbound) :
  (forall s v, f (set_connected s v) = f s) ->
  (forall s q, f (set_print_queue s q) = f s) ->
  keeps f (dispatch_all env cfg l).
Proof.
  intros Hc Hq.
  induction l as [|i l IH]; simpl; [apply keeps_pure|].
  apply keeps_bind; [|intros _; exact IH].
  destruct i; simpl;
    unfold on_connect, on_connect_body, on_print_message, on_print_message_body,
      send_print_status.
  - keeps_steps.
  - keeps_steps.
Qed.

(** X10.  Whatever arrives, a call of [mqttc.loop] only publishes and
    subscribes through its callbacks: it does no operation on the device
    file, does not sleep, and leaves the device cursor and the stored
    status as they were. *)
Theorem callbacks_only_use_the_bus (env : Env) (cfg : Config)
    (timeout : Z) (s : State) :
  exists t,
    trace_of (mqttc_loop env cfg timeout) s = EvLoop timeout :: t /\
    Forall is_bus_event t /\
    dev_ops (state_of (mqttc_loop env cfg timeout) s) = dev_ops s /\
    current_status (state_of (mqttc_loop env cfg timeout) s) = current_status s /\
    loops (state_of (mqttc_loop env cfg timeout) s) = S (loops s).
Proof.
  pose proof (always_dispatch_all_bus env cfg (fst (network env (loops s)))
                (next_loop s)) as HA.
  pose proof (keeps_dispatch_all dev_ops env cfg (fst (network env (loops s)))
                (fun _ _ => eq_refl) (fun _ _ => eq_refl) (next_loop s)) as HD.
  pose proof (keeps_dispatch_all current_status env cfg
                (fst (network env (loops s)))
                (fun _ _ => eq_refl) (fun _ _ => eq_refl) (next_loop s)) as HC.
  pose proof (keeps_dispatch_all loops env cfg (fst (network env (loops s)))
                (fun _ _ => eq_refl) (fun _ _ => eq_refl) (next_loop s)) as HL.
  unfold trace_of, state_of in *.
  unfold mqttc_loop, bind, get, put, emit, pure.
  destruct (dispatch_all env cfg (fst (network env (loops s))) (next_loop s))
    as [[o s1] t1].
  simpl in *. exists t1. destruct o; simpl; rewrite ?app_nil_r; auto.
Qed.

(** ** Sequencing *)

Lemma run_of_bind {R A B} (m : M R A) (k : A -> M R B) (s : State) :
  run_of (bind m k) s
  = match run_of m s with
    | Normal a => run_of (k a) (state_of m s)
    | Returned r => Returned r
    | Raised e => Raised e
    | OutOfFuel => OutOfFuel
    end.
Proof.
  unfold run_of, state_of, bind. destruct (m s) as [[o s1] t1].
  destruct o as [a| | |]; simpl; try reflexivity.
  destruct (k a s1) as [[o2 s2] t2]. reflexivity.
Qed.

Lemma state_of_bind {R A B} (m : M R A) (k : A -> M R B) (s : State) :
  state_of (bind m k) s
  = match run_of m s with
    | Normal a => state_of (k a) (state_of m s)
    | _ => state_of m s
    end.
Proof.
  unfold run_of, state_of, bind. destruct (m s) as [[o s1] t1].
  destruct o as [a| | |]; simpl; try reflexivity.
  destruct (k a s1) as [[o2 s2] t2]. reflexivity.
Qed.

Lemma trace_of_bind {R A B} (m : M R A) (k : A -> M R B) (s : State) :
  trace_of (bind m k) s
  = trace_of m s
    ++ match run_of m s with
       | Normal a => trace_of (k a) (state_of m s)
       | _ => []
       end.
Proof.
  unfold run_of, state_of, trace_of, bind. destruct (m s) as [[o s1] t1].
  destruct o as [a| | |]; simpl; rewrite ?app_nil_r; try reflexivity.
  destruct (k a s1) as [[o2 s2] t2]. reflexivity.
Qed.

Lemma keeps_fetch_status {X} (f : State -> X) (env : Env) :
  (forall s k, f (with_dev_ops s k) = f s) -> keeps f (fetch_status env).
Proof.
  intros H s. destruct (fetch_status_frame env s) as (st & k & t & E & _).
  unfold state_of. rewrite E. apply H.
Qed.

Lemma keeps_with_open {X} (f : State -> X) {R A} (env : Env)
    (m : file_mode) (body : M R A) :
  (forall s, f (next_dev_op s) = f s) ->
  keeps f body -> keeps f (with_open env m body).
Proof.
  intros H Hm s. unfold state_of, with_open, file_open, file_close.
  destruct (dev env (dev_ops s)); simpl; [|apply H].
  specialize (Hm (next_dev_op s)). unfold state_of in Hm.
  destruct (body (next_dev_op s)) as [[o s2] t2]. simpl in Hm.
  destruct (dev env (dev_ops s2)); simpl; rewrite H, Hm; apply H.
Qed.

Lemma keeps_file_write {X} (f : State -> X) {R} (env : Env) (d : bytes) :
  (forall s, f (next_dev_op s) = f s) -> keeps f (@file_write env R d).
Proof.
  intros H s. unfold state_of, file_write.
  destruct (dev env (dev_ops s)); apply H.
Qed.

Lemma keeps_run_print_job {X} (f : State -> X) (env : Env) (cfg : Config) :
  (forall s k, f (with_dev_ops s k) = f s) ->
  (forall s, f (next_dev_op s) = f s) ->
  (forall s q, f (set_print_queue s q) = f s) ->
  keeps f (run_print_job env cfg).
Proof.
  intros Hk Hn Hq. unfold run_print_job.
  apply keeps_get_bind. intros s.
  destruct (print_queue s) as [|[jobid data] rest]; [reflexivity|].
  rewrite state_of_bind. simpl run_of. cbv iota.
  change (state_of (put (set_print_queue s rest)) s)
    with (set_print_queue s rest).
  rewrite <- (Hq s rest).
  generalize (set_print_queue s rest). intros s1.
  assert (K : keeps f (bind (fetch_status env) (fun st =>
             if ok st
             then try_except
                    (with_open env mode_ab
                       (bind (file_write env data) (fun _ =>
                          send_print_status cfg jobid "Printed" true true)))
                    is_Exception
                    (fun e => send_print_status cfg jobid
                                ("Print failed: e=" ++ repr_exn e) true false)
             else send_print_status cfg jobid (status st) true false))).
  { apply keeps_bind; [apply keeps_fetch_status; exact Hk|intros st].
    unfold send_print_status.
    destruct (ok st); keeps_steps.
    apply keeps_with_open; [exact Hn|].
    apply keeps_bind; [apply keeps_file_write; exact Hn|intros _].
    apply keeps_emit. }
  apply K.
Qed.

Lemma always_run_print_job (P : event -> Prop) (env : Env) (cfg : Config) :
  (forall e, is_file_event e = true -> P e) -> P (EvSleep 100) ->
  (forall j, P (EvPublish (printed_topic cfg)
                  (printed_payload j "Printed" true true) false)) ->
  (forall j m, P (EvPublish (printed_topic cfg)
                    (printed_payload j m true false) false)) ->
  always P (run_print_job env cfg).
Proof.
  intros HF HS HOk HFail. unfold run_print_job, send_print_status.
  apply always_bind; [apply always_get|intros s].
  destruct (print_queue s) as [|[jobid data] rest]; [apply always_pure|].
  apply always_bind; [apply always_put|intros _].
  apply always_bind; [apply always_fetch_status; assumption|intros st].
  destruct (ok st).
  - apply always_try_except.
    + apply always_with_open; [exact HF|].
      apply always_bind; [apply always_file_write; exact HF|intros _].
      apply always_emit. apply HOk.
    + intros e. apply always_emit. apply HFail.
  - apply always_emit. apply HFail.
Qed.

Lemma always_run_reconnect (P : event -> Prop) (env : Env) (fuel : nat) :
  (forall r, P (EvReconnect r)) -> P (EvSleep 1000) ->
  always P (run_reconnect env fuel).
Proof.
  intros HR HS. induction fuel as [|fuel IH]; simpl.
  - apply always_bind; [apply always_get|intros s].
    destruct (connected s); [apply always_pure|]. intros s0. constructor.
  - apply always_bind; [apply always_get|intros s].
    destruct (connected s); [apply always_pure|].
    apply always_bind; [|intros _; exact IH].
    apply always_try_except.
    + apply always_bind; [apply always_mqttc_reconnect; exact HR|intros _].
      apply always_bind; [apply always_get|intros s1]. apply always_put.
    + intros e. apply always_emit. exact HS.
Qed.

Lemma always_check_printer_status (P : event -> Prop) (env : Env)
    (cfg : Config) :
  (forall e, is_file_event e = true -> P e) -> P (EvSleep 100) ->
  (forall st, P (EvPublish (status_topic cfg) (status_payload st) true)) ->
  always P (check_printer_status env cfg).
Proof.
  intros HF HS HP. unfold check_printer_status, check_printer_status_body.
  apply always_call_proc.
  apply always_bind; [apply always_fetch_status; assumption|intros st].
  apply always_bind; [apply always_get|intros s].
  destruct (negb (Status_eqb st (current_status s))); [|apply always_pure].
  apply always_bind; [apply always_put|intros _].
  apply always_emit. apply HP.
Qed.

Lemma always_run_poll (P : event -> Prop) (env : Env) (cfg : Config) (d : Z) :
  (forall e, is_file_event e = true -> P e) -> P (EvSleep 100) ->
  (forall st, P (EvPublish (status_topic cfg) (status_payload st) true)) ->
  (forall j m, P (EvPublish (printed_topic cfg)
                    (printed_payload j m true false) false)) ->
  P (EvSubscribe (print_topic cfg) 0) ->
  (forall z, (0 <= z)%Z -> P (EvLoop z)) ->
  always P (run_poll env cfg d).
Proof.
  intros HF HS HSt HFail HSub HL. unfold run_poll.
  apply always_bind; [apply always_get|intros s].
  destruct (connected s); [|apply always_pure].
  apply always_bind; [intros s0; constructor|intros now].
  apply always_bind.
  - destruct (Z.leb d now); [|apply always_pure].
    apply always_bind; [|intros _; apply always_pure].
    apply always_check_printer_status; assumption.
  - intros dl. apply always_bind; [|intros _; apply always_pure].
    unfold run_wait, mqttc_loop.
    apply always_bind.
    + apply always_bind; [apply always_get|intros s1].
      apply always_bind; [apply always_put|intros _].
      apply always_bind; [apply always_emit; apply HL; lia|intros _].
      apply always_bind; [|intros _; apply always_pure].
      apply always_dispatch_all; assumption.
    + intros rc. destruct (loop_rc_eqb rc MQTT_ERR_CONN_LOST).
      * apply always_bind; [apply always_get|intros s1]. apply always_put.
      * apply always_pure.
Qed.

Lemma always_run_loop (P : event -> Prop) (env : Env) (cfg : Config)
    (fuel : nat) :
  (forall e, is_file_event e = true -> P e) ->
  P (EvSleep 100) -> P (EvSleep 1000) ->
  (forall j, P (EvPublish (printed_topic cfg)
                  (printed_payload j "Printed" true true) false)) ->
  (forall j m, P (EvPublish (printed_topic cfg)
                    (printed_payload j m true false) false)) ->
  (forall st, P (EvPublish (status_topic cfg) (status_payload st) true)) ->
  P (EvSubscribe (print_topic cfg) 0) ->
  (forall z, (0 <= z)%Z -> P (EvLoop z)) ->
  (forall r, P (EvReconnect r)) ->
  P (EvNotify "WATCHDOG=1") ->
  forall n d, always P (run_loop env cfg n fuel d).
Proof.
  intros HF HS1 HS2 HOk HFail HSt HSub HL HR HN.
  induction n as [|n IH]; intros d; simpl.
  - intros s. constructor.
  - apply always_bind; [|intros d'; apply IH].
    unfold run_iteration.
    apply always_bind; [apply always_emit; exact HN|intros _].
    apply always_bind; [apply always_run_print_job; assumption|intros _].
    apply always_bind; [apply always_run_reconnect; assumption|intros _].
    apply always_run_poll; assumption.
Qed.

(** X15.  With a polling interval that is a number and not negative,
    no call of [mqttc.loop] in any number of rounds gets a negative
    timeout. *)
Theorem run_never_waits_negative (env : Env) (cfg : Config)
    (iterations fuel : nat) (s : State) :
  (0 <= status_check_interval cfg)%Z ->
  Forall timeout_not_negative (trace_of (run env cfg iterations fuel) s).
Proof.
  intros _. unfold run. apply always_run_loop; simpl; auto.
  intros [] H; simpl; try exact I. discriminate H.
Qed.

Lemma run_never_waits_negative_witness :
  (0 <= status_check_interval shop_cfg)%Z /\
  Forall timeout_not_negative (trace_of (run env_shop shop_cfg 2 5) init).
Proof.
  split; [discriminate|].
  apply (run_never_waits_negative env_shop shop_cfg 2 5 init). discriminate.
Defined.

(** X16.  In any number of rounds, every message published is a
    retained status on the status topic or a finished, unretained job
    result on the printed topic, a successful result always reading
    "Printed"; the only subscription is to the print topic at QoS 0; the
    only notification is the watchdog signal; the only sleeps are of
    100 ms and of one second. *)
Theorem run_bus_discipline (env : Env) (cfg : Config)
    (iterations fuel : nat) (s : State) :
  Forall (bus_discipline cfg) (trace_of (run env cfg iterations fuel) s).
Proof.
  unfold run. apply always_run_loop; simpl; auto.
  - intros [] H; simpl; try exact I; discriminate H.
  - intros j. right. repeat split. exists j, "Printed", true. auto.
  - intros j m. right. repeat split. exists j, m, false.
    split; [reflexivity|discriminate].
  - intros st. left. repeat split. exists st. reflexivity.
Qed.

(** ** Print requests, whatever the payload *)

(** X8.  Whatever the payload, [on_print_message] does one of three
    things: it leaves the state alone and sends nothing (the message is
    dropped, or an exception leaves the callback); it leaves the state
    alone and publishes exactly one failure result; it appends exactly
    one job to the queue and sends nothing.  It never removes or reorders
    a job, never reports success and never touches the device. *)
Theorem on_print_message_outcomes (env : Env) (cfg : Config)
    (msg : bytes) (s : State) :
  (state_of (on_print_message env cfg msg) s = s /\
   trace_of (on_print_message env cfg msg) s = [])
  \/
  (exists jobid message,
     run_of (on_print_message env cfg msg) s = Normal tt /\
     state_of (on_print_message env cfg msg) s = s /\
     trace_of (on_print_message env cfg msg) s
     = [printed_result cfg jobid message false])
  \/
  (exists job,
     run_of (on_print_message env cfg msg) s = Normal tt /\
     state_of (on_print_message env cfg msg) s
     = set_print_queue s (print_queue s ++ [job]) /\
     trace_of (on_print_message env cfg msg) s = []).
Proof.
  unfold run_of, state_of, trace_of.
  unfold on_print_message, call_proc, on_print_message_body.
  unfold bind, try_except, lift, py_contains, py_getitem, pure, return_, raise,
    send_print_status, emit, get, put, printed_result.
  destruct (json_loads env msg) as [v|e].
  2:{ destruct e; simpl; auto. }
  destruct v as [| | | |str|l|items]; simpl; auto.
  - destruct (String.index 0 "jobid" str); simpl; auto.
  - destruct (existsb _ l); simpl; auto.
  - destruct (dict_get items "jobid") as [j|]; simpl; auto.
    destruct (dict_get items "data") as [d|]; simpl.
    + destruct (b64decode env d) as [e|data]; simpl.
      * right; left. eauto.
      * right; right. eauto.
    + right; left. eauto.
Qed.

Lemma on_print_message_accepts (env : Env) (cfg : Config) (msg : bytes)
    (job : string * bytes) (s : State) :
  decodes env msg job ->
  on_print_message env cfg msg s
  = (Normal tt, set_print_queue s (print_queue s ++ [job]), []).
Proof.
  intros (items & j & d & L & J & D & Hj & B).
  unfold on_print_message, call_proc, on_print_message_body.
  unfold bind, try_except, lift, py_contains, py_getitem, pure, return_, raise,
    send_print_status, emit, get, put.
  rewrite L, J, D. simpl. rewrite B, Hj. destruct job; reflexivity.
Qed.

(** X9.  Print messages that each decode to a job, delivered in one call
    of [mqttc.loop], are appended to the queue in the order of arrival,
    and nothing is published. *)
Theorem dispatch_all_enqueues_in_order (env : Env) (cfg : Config)
    (msgs : list bytes) (jobs : list (string * bytes)) :
  Forall2 (decodes env) msgs jobs ->
  forall s,
    dispatch_all env cfg (map in_print msgs) s
    = (Normal tt, set_print_queue s (print_queue s ++ jobs), []).
Proof.
  induction 1 as [|msg job msgs jobs Hd _ IH]; intros s.
  - simpl. rewrite app_nil_r. destruct s; reflexivity.
  - simpl. unfold bind. rewrite (on_print_message_accepts env cfg msg job s Hd).
    rewrite IH. simpl. rewrite <- app_assoc. reflexivity.
Qed.

Lemma dispatch_all_enqueues_in_order_witness :
  Forall2 (decodes env_shop) [hello_message; hello_message]
    [("7", hello); ("7", hello)] /\
  dispatch_all env_shop shop_cfg
    (map in_print [hello_message; hello_message]) init
  = (Normal tt,
     set_print_queue init (print_queue init ++ [("7", hello); ("7", hello)]),
     []).
Proof.
  assert (D : decodes env_shop hello_message ("7", hello)).
  { exists [("jobid", PyInt 7); ("data", PyStr "aGVsbG8=")],
      (PyInt 7), (PyStr "aGVsbG8="). repeat split. }
  assert (H : Forall2 (decodes env_shop) [hello_message; hello_message]
                [("7", hello); ("7", hello)]).
  { repeat constructor; exact D. }
  split; [exact H|].
  apply (dispatch_all_enqueues_in_order env_shop shop_cfg _ _ H init).
Defined.

(** ** The results of a job *)

Lemma last_io_error_app (a b : list event) :
  last_io_error (a ++ b)
  = match last_io_error b with
    | Some x => Some x
    | None => last_io_error a
    end.
Proof.
  induction a as [|e a IH]; simpl.
  - destruct (last_io_error b); reflexivity.
  - rewrite IH. destruct (last_io_error b); reflexivity.
Qed.

(** X11.  A job taken from the queue gets one or two results, all under
    its own id: the text of a status that is not [ok]; "Printed" alone;
    "Printed" followed by "Print failed" when closing the device fails
    after the write; or "Print failed" alone.  "Printed" is published
    only when the call [f.write(data)] has returned (the file object may
    still hold the bytes then: an error of the device that shows at the
    close gives the second result), and a "Print failed" result carries
    the last I/O error of the step. *)
Theorem run_print_job_results (env : Env) (cfg : Config) (s : State)
    (jobid : string) (data : bytes) (rest : list (string * bytes)) :
  print_queue s = (jobid, data) :: rest ->
  exists st,
    run_of (fetch_status env) (set_print_queue s rest) = Normal st /\
    ((ok st = false /\
      published (trace_of (run_print_job env cfg) s)
      = [job_result cfg jobid (status st) false])
     \/
     (ok st = true /\
      In (EvWrite data) (trace_of (run_print_job env cfg) s) /\
      published (trace_of (run_print_job env cfg) s)
      = [job_result cfg jobid "Printed" true])
     \/
     (ok st = true /\
      exists e,
        last_io_error (trace_of (run_print_job env cfg) s) = Some e /\
        In (EvWrite data) (trace_of (run_print_job env cfg) s) /\
        published (trace_of (run_print_job env cfg) s)
        = [job_result cfg jobid "Printed" true;
           job_result cfg jobid ("Print failed: e=" ++ e) false])
     \/
     (ok st = true /\
      exists e,
        last_io_error (trace_of (run_print_job env cfg) s) = Some e /\
        published (trace_of (run_print_job env cfg) s)
        = [job_result cfg jobid ("Print failed: e=" ++ e) false])).
Proof.
  intros Hq.
  destruct (fetch_status_frame env (set_print_queue s rest))
    as (st & k & t1 & E & Hp & _).
  exists st. unfold run_of, trace_of.
  split; [rewrite E; reflexivity|].
  unfold run_print_job, bind, get.
  rewrite Hq. cbn [put]. rewrite E.
  destruct (ok st) eqn:Hok.
  - unfold try_except, with_open, file_open, file_write, file_close, bind,
      send_print_status, emit, job_result.
    cbn [dev_ops with_dev_ops next_dev_op].
    destruct (dev env k) as [d0|e0]; cbn -[app]; cbn [app].
    2:{ right; right; right. split; [reflexivity|]. exists e0.
        rewrite published_app, Hp, last_io_error_app. split; reflexivity. }
    destruct (dev env (S k)) as [d1|e1]; cbn -[app]; cbn [app].
    + destruct (dev env (S (S k))) as [d2|e2]; cbn -[app]; cbn [app].
      * right; left. split; [reflexivity|].
        rewrite published_app, Hp. split; [|reflexivity].
        apply in_or_app. right. simpl. auto.
      * right; right; left. split; [reflexivity|]. exists e2.
        rewrite published_app, Hp, last_io_error_app.
        split; [reflexivity|]. split; [|reflexivity].
        apply in_or_app. right. simpl. auto.
    + destruct (dev env (S (S k))) as [d2|e2]; cbn -[app]; cbn [app].
      * right; right; right. split; [reflexivity|]. exists e1.
        rewrite published_app, Hp, last_io_error_app. split; reflexivity.
      * right; right; right. split; [reflexivity|]. exists e2.
        rewrite published_app, Hp, last_io_error_app. split; reflexivity.
  - left. split; [reflexivity|].
    unfold send_print_status, emit, job_result. cbn -[app]; cbn [app].
    rewrite published_app, Hp. reflexivity.
Qed.

Lemma run_print_job_results_witness :
  print_queue one_job = [("7", hello)] /\
  exists st,
    run_of (fetch_status env_ready) (set_print_queue one_job []) = Normal st /\
    ((ok st = false /\
      published (trace_of (run_print_job env_ready shop_cfg) one_job)
      = [job_result shop_cfg "7" (status st) false])
     \/
     (ok st = true /\
      In (EvWrite hello) (trace_of (run_print_job env_ready shop_cfg) one_job) /\
      published (trace_of (run_print_job env_ready shop_cfg) one_job)
      = [job_result shop_cfg "7" "Printed" true])
     \/
     (ok st = true /\
      exists e,
        last_io_error (trace_of (run_print_job env_ready shop_cfg) one_job)
        = Some e /\
        In (EvWrite hello)
          (trace_of (run_print_job env_ready shop_cfg) one_job) /\
        published (trace_of (run_print_job env_ready shop_cfg) one_job)
        = [job_result shop_cfg "7" "Printed" true;
           job_result shop_cfg "7" ("Print failed: e=" ++ e) false])
     \/
     (ok st = true /\
      exists e,
        last_io_error (trace_of (run_print_job env_ready shop_cfg) one_job)
        = Some e /\
        published (trace_of (run_print_job env_ready shop_cfg) one_job)
        = [job_result shop_cfg "7" ("Print failed: e=" ++ e) false])).
Proof.
  split; [reflexivity|].
  apply (run_print_job_results env_ready shop_cfg one_job "7" hello []).
  reflexivity.
Defined.

(** ** Whole rounds *)

Lemma run_iteration_unfold (env : Env) (cfg : Config) (fuel : nat) (d : Z)
    (s : State) :
  run_of (run_print_job env cfg) s = Normal tt /\
  run_of (run_iteration env cfg fuel d) s
  = match run_of (run_reconnect env fuel) (state_of (run_print_job env cfg) s) with
    | Normal _ =>
        run_of (run_poll env cfg d)
          (state_of (run_reconnect env fuel) (state_of (run_print_job env cfg) s))
    | Returned r => Returned r
    | Raised e => Raised e
    | OutOfFuel => OutOfFuel
    end /\
  trace_of (run_iteration env cfg fuel d) s
  = EvNotify "WATCHDOG=1"
    :: trace_of (run_print_job env cfg) s
    ++ trace_of (run_reconnect env fuel) (state_of (run_print_job env cfg) s)
    ++ match run_of (run_reconnect env fuel) (state_of (run_print_job env cfg) s) with
       | Normal _ =>
           trace_of (run_poll env cfg d)
             (state_of (run_reconnect env fuel)
                (state_of (run_print_job env cfg) s))
       | _ => []
       end.
Proof.
  destruct (run_print_job_queue env cfg s) as [R _].
  split; [exact R|]. unfold run_iteration. split.
  - rewrite run_of_bind. change (run_of (emit _) s) with (@Normal unit unit tt).
    cbv iota. change (state_of (emit (EvNotify "WATCHDOG=1")) s) with s.
    rewrite run_of_bind, R. rewrite run_of_bind. reflexivity.
  - rewrite trace_emit_bind, trace_of_bind, R, trace_of_bind. reflexivity.
Qed.

(** X13.  A round that starts connected makes no reconnect attempt,
    whatever the job step and the device do. *)
Theorem connected_round_never_reconnects (env : Env) (cfg : Config)
    (fuel : nat) (d : Z) (s : State) :
  connected s = true ->
  Forall (fun e => is_reconnect e = false)
    (trace_of (run_iteration env cfg fuel d) s).
Proof.
  intros Hc.
  destruct (run_iteration_unfold env cfg fuel d s) as (_ & _ & T).
  rewrite T. clear T.
  assert (Hc1 : connected (state_of (run_print_job env cfg) s) = true).
  { rewrite (keeps_run_print_job connected env cfg); auto. }
  unfold run_of at 1. unfold state_of at 3. unfold trace_of at 2.
  rewrite (run_reconnect_connected env fuel _ Hc1). cbn [fst snd app].
  constructor; [reflexivity|]. apply Forall_app. split.
  - apply always_run_print_job; auto.
    intros [] H; first [reflexivity | discriminate H].
  - apply always_run_poll; auto.
    intros [] H; first [reflexivity | discriminate H].
Qed.

Lemma connected_round_never_reconnects_witness :
  connected one_job = true /\
  Forall (fun e => is_reconnect e = false)
    (trace_of (run_iteration env_ready shop_cfg 3 0) one_job).
Proof.
  split; [reflexivity|].
  apply (connected_round_never_reconnects env_ready shop_cfg 3 0 one_job).
  reflexivity.
Defined.

(** X14.  A round with an empty queue, connected, before the polling
    deadline, signals the watchdog and calls [mqttc.loop] with the time
    left until the deadline; it does not query the printer, and the
    device cursor and the stored status are unchanged. *)
Theorem idle_round_only_waits (env : Env) (cfg : Config) (fuel : nat)
    (deadline : Z) (s : State) :
  print_queue s = [] ->
  connected s = true ->
  (clock env (clock_reads s) < deadline)%Z ->
  exists t,
    trace_of (run_iteration env cfg fuel deadline) s
    = EvNotify "WATCHDOG=1"
      :: EvLoop (deadline - clock env (clock_reads s)) :: t /\
    Forall is_bus_event t /\
    dev_ops (state_of (run_iteration env cfg fuel deadline) s) = dev_ops s /\
    current_status (state_of (run_iteration env cfg fuel deadline) s)
    = current_status s.
Proof.
  intros Hq Hc Hnow.
  assert (Hmax : Z.max (deadline - clock env (clock_reads s)) 0
                 = (deadline - clock env (clock_reads s))%Z) by lia.
  assert (Hleb : Z.leb deadline (clock env (clock_reads s)) = false)
    by (apply Z.leb_gt; exact Hnow).
  pose proof (always_dispatch_all_bus env cfg (fst (network env (loops s)))
                (next_loop (next_clock_read s))) as HB.
  pose proof (keeps_dispatch_all dev_ops env cfg
                (fst (network env (loops s)))
                (fun _ _ => eq_refl) (fun _ _ => eq_refl)
                (next_loop (next_clock_read s))) as HD.
  pose proof (keeps_dispatch_all current_status env cfg
                (fst (network env (loops s)))
                (fun _ _ => eq_refl) (fun _ _ => eq_refl)
                (next_loop (next_clock_read s))) as HC.
  unfold trace_of, state_of in *.
  remember (run_iteration env cfg fuel deadline s) as res eqn:E.
  unfold run_iteration in E. unfold bind at 1 2 3 in E.
  unfold emit at 1 in E. rewrite (run_print_job_empty env cfg s Hq) in E.
  rewrite (run_reconnect_connected env fuel s Hc) in E.
  unfold run_poll in E. unfold bind at 1 in E. unfold get at 1 in E.
  rewrite Hc in E.
  unfold bind at 1 in E. unfold time_time in E. rewrite Hleb in E.
  unfold bind at 1 in E. unfold pure at 1 in E. rewrite Hmax in E.
  unfold run_wait in E. unfold bind at 1 2 in E.
  unfold mqttc_loop, bind, get, put, emit, pure in E.
  cbn [loops next_clock_read] in E.
  destruct (dispatch_all env cfg (fst (network env (loops s)))
              (next_loop (next_clock_read s))) as [[o s1] t1].
  simpl in HB, HD, HC.
  exists t1.
  destruct o as [[]| | |]; simpl in E.
  all: try destruct (loop_rc_eqb _ _); simpl in E.
  all: rewrite ?app_nil_r in E; subst res; simpl; auto.
Qed.

Lemma idle_round_only_waits_witness :
  print_queue connected_init = [] /\
  connected connected_init = true /\
  (clock env_shop (clock_reads connected_init) < 5000)%Z /\
  exists t,
    trace_of (run_iteration env_shop shop_cfg 3 5000) connected_init
    = EvNotify "WATCHDOG=1"
      :: EvLoop (5000 - clock env_shop (clock_reads connected_init)) :: t /\
    Forall is_bus_event t /\
    dev_ops (state_of (run_iteration env_shop shop_cfg 3 5000) connected_init)
    = dev_ops connected_init /\
    current_status
      (state_of (run_iteration env_shop shop_cfg 3 5000) connected_init)
    = current_status connected_init.
Proof.
  split; [reflexivity|]. split; [reflexivity|]. split; [reflexivity|].
  apply (idle_round_only_waits env_shop shop_cfg 3 5000 connected_init);
    reflexivity.
Defined.

(** ** Errors that end the loop *)

Lemma run_wait_not_authorised (env : Env) (cfg : Config) (timeout : Z)
    (s : State) (rest : list inbound) :
  fst (network env (loops s)) = in_connack 5 :: rest ->
  run_of (run_wait env cfg timeout) s = Raised (SystemExit 1).
Proof.
  intros H. unfold run_of, run_wait, mqttc_loop, bind, get, put, emit.
  rewrite H. reflexivity.
Qed.

Lemma run_poll_not_authorised (env : Env) (cfg : Config) (d : Z)
    (s : State) (rest : list inbound) :
  connected s = true ->
  fst (network env (loops s)) = in_connack 5 :: rest ->
  run_of (run_poll env cfg d) s = Raised (SystemExit 1).
Proof.
  intros Hc H. unfold run_poll.
  rewrite run_of_bind. change (run_of get s) with (@Normal unit State s).
  cbv iota. rewrite Hc. change (state_of get s) with s.
  rewrite run_of_bind.
  change (run_of (time_time env) s)
    with (@Normal unit Z (clock env (clock_reads s))).
  cbv iota. change (state_of (time_time env) s) with (next_clock_read s).
  rewrite run_of_bind.
  destruct (Z.leb d (clock env (clock_reads s))).
  - destruct (check_printer_status_loops env cfg (next_clock_read s))
      as (s2 & t2 & E & Hl).
    set (dl := (clock env (clock_reads s) + status_check_interval cfg)%Z).
    assert (F1 : run_of (bind (check_printer_status env cfg)
                           (fun _ => @pure unit Z dl)) (next_clock_read s)
                 = Normal dl).
    { unfold run_of, bind. rewrite E. reflexivity. }
    assert (F2 : state_of (bind (check_printer_status env cfg)
                             (fun _ => @pure unit Z dl)) (next_clock_read s)
                 = s2).
    { unfold state_of, bind. rewrite E. reflexivity. }
    rewrite F1, F2. rewrite run_of_bind.
    rewrite (run_wait_not_authorised env cfg _ s2 rest); [reflexivity|].
    rewrite Hl. exact H.
  - change (run_of (pure d) (next_clock_read s)) with (@Normal unit Z d).
    cbv iota. rewrite run_of_bind.
    rewrite (run_wait_not_authorised env cfg _ _ rest); [reflexivity|exact H].
Qed.

(** X17.  When the next call of [mqttc.loop] delivers a connection
    acknowledgement with return code 5 first, [run], started connected,
    ends in its first round with [SystemExit(1)], whatever is queued and
    whatever else was delivered. *)
Theorem not_authorised_ends_run (env : Env) (cfg : Config)
    (iterations fuel : nat) (s : State) (rest : list inbound) :
  connected s = true ->
  fst (network env (loops s)) = in_connack 5 :: rest ->
  run_of (run env cfg (S iterations) fuel) s = Raised (SystemExit 1).
Proof.
  intros Hc H. unfold run. simpl run_loop. rewrite run_of_bind.
  destruct (run_iteration_unfold env cfg fuel 0 s) as (_ & Ro & _).
  rewrite Ro. clear Ro.
  assert (Hc1 : connected (state_of (run_print_job env cfg) s) = true).
  { rewrite (keeps_run_print_job connected env cfg); auto. }
  assert (Hl1 : loops (state_of (run_print_job env cfg) s) = loops s).
  { apply (keeps_run_print_job loops env cfg); auto. }
  assert (F1 : run_of (run_reconnect env fuel)
                 (state_of (run_print_job env cfg) s) = Normal tt).
  { unfold run_of. rewrite (run_reconnect_connected env fuel _ Hc1).
    reflexivity. }
  assert (F2 : state_of (run_reconnect env fuel)
                 (state_of (run_print_job env cfg) s)
               = state_of (run_print_job env cfg) s).
  { unfold state_of at 1. rewrite (run_reconnect_connected env fuel _ Hc1).
    reflexivity. }
  rewrite F1, F2.
  rewrite (run_poll_not_authorised env cfg 0 _ rest Hc1); [reflexivity|].
  rewrite Hl1. exact H.
Qed.

Lemma not_authorised_ends_run_witness :
  connected connected_init = true /\
  fst (network env_not_authorised (loops connected_init))
  = in_connack 5 :: [in_print hello_message] /\
  run_of (run env_not_authorised shop_cfg 3 2) connected_init
  = Raised (SystemExit 1).
Proof.
  repeat (split; [reflexivity|]).
  apply (not_authorised_ends_run env_not_authorised shop_cfg 2 2
           connected_init [in_print hello_message]); reflexivity.
Defined.

Lemma run_reconnect_raises (env : Env) (fuel : nat) (s : State) (e : exn) :
  connected s = false ->
  broker env (reconnects s) = reconnect_raises e ->
  is_ConnectionRefusedError e = false ->
  run_reconnect env (S fuel) s
  = (Raised e, next_reconnect s, [EvReconnect (reconnect_raises e)]).
Proof.
  intros Hc Hb He. simpl. unfold bind at 1. unfold get at 1. rewrite Hc.
  unfold bind at 1. unfold try_except, bind, mqttc_reconnect. rewrite Hb, He.
  reflexivity.
Qed.

(** X18.  When [run] starts disconnected and reconnecting raises an
    exception that is not [ConnectionRefusedError], the exception leaves
    [run] in the first round: only refusals are retried. *)
Theorem reconnect_error_ends_run (env : Env) (cfg : Config)
    (iterations fuel : nat) (s : State) (e : exn) :
  connected s = false ->
  broker env (reconnects s) = reconnect_raises e ->
  is_ConnectionRefusedError e = false ->
  run_of (run env cfg (S iterations) (S fuel)) s = Raised e.
Proof.
  intros Hc Hb He. unfold run. simpl run_loop. rewrite run_of_bind.
  destruct (run_iteration_unfold env cfg (S fuel) 0 s) as (_ & Ro & _).
  rewrite Ro. clear Ro.
  assert (Hc1 : connected (state_of (run_print_job env cfg) s) = false).
  { rewrite (keeps_run_print_job connected env cfg); auto. }
  assert (Hr1 : reconnects (state_of (run_print_job env cfg) s) = reconnects s).
  { apply (keeps_run_print_job reconnects env cfg); auto. }
  assert (F1 : run_of (run_reconnect env (S fuel))
                 (state_of (run_print_job env cfg) s) = Raised e).
  { unfold run_of. rewrite (run_reconnect_raises env fuel _ e Hc1);
      [reflexivity| |exact He].
    rewrite Hr1. exact Hb. }
  rewrite F1. reflexivity.
Qed.

Lemma reconnect_error_ends_run_witness :
  connected init = false /\
  broker env_broker_down (reconnects init)
  = reconnect_raises (OtherOSError "TimeoutError()") /\
  is_ConnectionRefusedError (OtherOSError "TimeoutError()") = false /\
  run_of (run env_broker_down shop_cfg 3 2) init
  = Raised (OtherOSError "TimeoutError()").
Proof.
  repeat (split; [reflexivity|]).
  apply (reconnect_error_ends_run env_broker_down shop_cfg 2 1 init
           (OtherOSError "TimeoutError()")); reflexivity.
Defined.

(** ** The stored status *)

Lemma last_status_published_app (a b : list event) :
  last_status_published (a ++ b)
  = match last_status_published b with
    | Some st => Some st
    | None => last_status_published a
    end.
Proof.
  induction a as [|e a IH]; simpl.
  - destruct (last_status_published b); reflexivity.
  - rewrite IH. destruct (last_status_published b); reflexivity.
Qed.

Lemma published_nil_last (t : list event) :
  published t = [] -> last_status_published t = None.
Proof.
  induction t as [|e t IH]; [reflexivity|].
  destruct e; simpl; intros H; try discriminate H; rewrite (IH H); reflexivity.
Qed.

Lemma check_printer_status_last (env : Env) (cfg : Config) (s : State) :
  exists s1 t1,
    check_printer_status env cfg s = (Normal tt, s1, t1) /\
    current_status s1 <> status_offline /\
    match last_status_published t1 with
    | Some st => current_status s1 = st
    | None => current_status s1 = current_status s
    end.
Proof.
  destruct (fetch_status_frame env s) as (st & k & t & E & Hp & _).
  assert (Hoff : st <> status_offline).
  { intros ->. apply (fetch_status_not_offline env s).
    unfold run_of. rewrite E. reflexivity. }
  unfold check_printer_status, call_proc, check_printer_status_body, bind.
  rewrite E. cbn [get put emit pure current_status with_dev_ops].
  destruct (Status_eqb st (current_status s)) eqn:Q; cbn [negb].
  - do 2 eexists. split; [reflexivity|]. apply Status_eqb_eq in Q.
    rewrite app_nil_r, (published_nil_last t Hp). cbn.
    split; [rewrite <- Q; exact Hoff|reflexivity].
  - do 2 eexists. split; [reflexivity|].
    rewrite last_status_published_app. cbn. split; [exact Hoff|reflexivity].
Qed.

Lemma run_checks_last (env : Env) (cfg : Config) (n : nat) : forall s,
  (current_status s <> status_offline \/ 0 < n ->
   current_status (state_of (run_checks env cfg n) s) <> status_offline) /\
  match last_status_published (trace_of (run_checks env cfg n) s) with
  | Some st => current_status (state_of (run_checks env cfg n) s) = st
  | None =>
      current_status (state_of (run_checks env cfg n) s) = current_status s
  end.
Proof.
  induction n as [|n IH]; intros s.
  - split; [|reflexivity]. intros [H|H]; [exact H|lia].
  - destruct (check_printer_status_last env cfg s) as (s1 & t1 & E & Hoff & L).
    destruct (IH s1) as (Hoff' & L').
    unfold state_of, trace_of in *. simpl. unfold bind. rewrite E.
    destruct (run_checks env cfg n s1) as [[o s2] t2]. simpl in *.
    split.
    + intros _. apply Hoff'. left. exact Hoff.
    + rewrite last_status_published_app.
      destruct (last_status_published t2); [exact L'|].
      destruct (last_status_published t1); congruence.
Qed.

(** X12.  Starting from the stored status [status_offline], after one
    or more calls of [check_printer_status] the stored status is the
    status of the last message published. *)
Theorem stored_status_is_last_published (env : Env) (cfg : Config)
    (n : nat) (s : State) :
  current_status s = status_offline ->
  0 < n ->
  last_status_published (trace_of (run_checks env cfg n) s)
  = Some (current_status (state_of (run_checks env cfg n) s)).
Proof.
  intros Hs Hn. destruct (run_checks_last env cfg n s) as (Hoff & L).
  specialize (Hoff (or_intror Hn)).
  destruct (last_status_published (trace_of (run_checks env cfg n) s)).
  - rewrite L. reflexivity.
  - rewrite L, Hs in Hoff. contradiction.
Qed.

Lemma stored_status_is_last_published_witness :
  current_status init = status_offline /\ 0 < 3 /\
  last_status_published (trace_of (run_checks env_cover_open shop_cfg 3) init)
  = Some (current_status
            (state_of (run_checks env_cover_open shop_cfg 3) init)).
Proof.
  split; [reflexivity|]. split; [lia|].
  apply (stored_status_is_last_published env_cover_open shop_cfg 3 init);
    [reflexivity|lia].
Defined.

(** ** The topics *)

Lemma get_length_append_slash (p : string) :
  String.get (String.length p) (p ++ "/")%string = Some "/"%char.
Proof.
  induction p as [|c p IH]; [reflexivity|exact IH].
Qed.

Lemma length_append_slash (p : string) :
  String.length (p ++ "/")%string = S (String.length p).
Proof.
  induction p as [|c p IH]; [reflexivity|]. simpl. rewrite IH. reflexivity.
Qed.

Lemma ends_with_slash_append (p : string) :
  ends_with_slash (p ++ "/")%string = true.
Proof.
  unfold ends_with_slash. rewrite length_append_slash. simpl.
  rewrite Nat.sub_0_r, get_length_append_slash. reflexivity.
Qed.

Lemma append_inj_l (p a b : string) :
  (p ++ a)%string = (p ++ b)%string -> a = b.
Proof.
  induction p as [|c p IH]; simpl; intros H; [exact H|].
  injection H as H. auto.
Qed.

(** X19.  The prefix used for the topics is empty or ends with a slash,
    and is empty only for an empty configured prefix; normalising it
    again changes nothing; and the three topics are pairwise
    different. *)
Theorem topics_well_formed (prefix : string) (interval : Z) :
  (topic_prefix prefix = "" \/ ends_with_slash (topic_prefix prefix) = true) /\
  (topic_prefix prefix = "" <-> prefix = "") /\
  topic_prefix (topic_prefix prefix) = topic_prefix prefix /\
  configure (topic_prefix prefix) interval = configure prefix interval /\
  status_topic (configure prefix interval)
    <> print_topic (configure prefix interval) /\
  print_topic (configure prefix interval)
    <> printed_topic (configure prefix interval) /\
  status_topic (configure prefix interval)
    <> printed_topic (configure prefix interval).
Proof.
  assert (N : topic_prefix prefix = ""
              \/ ends_with_slash (topic_prefix prefix) = true).
  { unfold topic_prefix. destruct (String.eqb_spec prefix "") as [->|Hne].
    - left. reflexivity.
    - simpl. destruct (ends_with_slash prefix) eqn:E; simpl.
      + right. exact E.
      + right. apply ends_with_slash_append. }
  assert (I : topic_prefix (topic_prefix prefix) = topic_prefix prefix).
  { destruct N as [-> | E]; [reflexivity|].
    unfold topic_prefix at 1. rewrite E, andb_false_r. reflexivity. }
  split; [exact N|]. split; [|split; [exact I|split]].
  - unfold topic_prefix. destruct (String.eqb_spec prefix "") as [->|Hne].
    + simpl. tauto.
    + simpl. destruct (ends_with_slash prefix); simpl.
      * tauto.
      * split; [|tauto]. destruct prefix; discriminate.
  - unfold configure. rewrite I. reflexivity.
  - unfold configure; simpl. repeat split; intros H;
      apply append_inj_l in H; discriminate H.
Qed.

(** * The loop, round by round *)

(** ** The queue over a round *)











Lemma run_iteration_state (env : Env) (cfg : Config) (fuel : nat) (d : Z)
    (s : State) :
  state_of (run_iteration env cfg fuel d) s
  = match run_of (run_reconnect env fuel) (state_of (run_print_job env cfg) s) with
    | Normal _ =>
        state_of (run_poll env cfg d)
          (state_of (run_reconnect env fuel) (state_of (run_print_job env cfg) s))
    | _ => state_of (run_reconnect env fuel) (state_of (run_print_job env cfg) s)
    end.
Proof.
  destruct (run_print_job_queue env cfg s) as [R _].
  unfold run_iteration.
  rewrite state_of_bind. change (run_of (emit _) s) with (@Normal unit unit tt).
  cbv iota. change (state_of (emit (EvNotify "WATCHDOG=1")) s) with s.
  rewrite state_of_bind, R. rewrite state_of_bind. reflexivity.
Qed.





(** Two jobs wait and a third arrives during the first round: the
    round prints the first job only, the second round the second, and
    the job that arrived waits behind. *)
Example run_two_jobs :
  print_queue
    (state_of (run_iteration env_shop shop_cfg 3 5000)
       (set_print_queue one_job [("7", hello); ("8", [x21])]))
  = [("8", [x21]); ("7", hello)] /\
  writes
    (trace_of (run_iteration env_shop shop_cfg 3 5000)
       (set_print_queue one_job [("7", hello); ("8", [x21])]))
  = [DLE_EOT_1; hello] /\
  writes
    (trace_of (run_loop env_shop shop_cfg 2 3 5000)
       (set_print_queue one_job [("7", hello); ("8", [x21])]))
  = [DLE_EOT_1; hello; DLE_EOT_1; [x21]] /\
  print_queue
    (state_of (run_loop env_shop shop_cfg 2 3 5000)
       (set_print_queue one_job [("7", hello); ("8", [x21])]))
  = [("7", hello)].
Proof. repeat split. Qed.

(** ** Reconnecting over a round *)

Lemma run_iteration_connection_lost (env : Env) (cfg : Config) (fuel : nat)
    (d : Z) (s : State) (d' : Z) :
  connected s = true ->
  snd (network env (loops s)) = MQTT_ERR_CONN_LOST ->
  run_of (run_iteration env cfg fuel d) s = Normal d' ->
  connected (state_of (run_iteration env cfg fuel d) s) = false.
Proof.
  intros Hc Hn H.
  destruct (run_iteration_unfold env cfg fuel d s) as (_ & R & _).
  rewrite R in H. clear R. rewrite run_iteration_state.
  assert (Hc1 : connected (state_of (run_print_job env cfg) s) = true).
  { rewrite (keeps_run_print_job connected env cfg); auto. }
  assert (Hl1 : loops (state_of (run_print_job env cfg) s) = loops s).
  { rewrite (keeps_run_print_job loops env cfg); auto. }
  pose proof (run_reconnect_connected env fuel _ Hc1) as E.
  assert (Er : run_of (run_reconnect env fuel)
                 (state_of (run_print_job env cfg) s) = Normal tt)
    by (unfold run_of; rewrite E; reflexivity).
  assert (Es : state_of (run_reconnect env fuel)
                 (state_of (run_print_job env cfg) s)
               = state_of (run_print_job env cfg) s)
    by (unfold state_of at 1; rewrite E; reflexivity).
  rewrite Er, Es in *.
  apply (run_poll_connection_lost env cfg d _ d' Hc1); [|exact H].
  rewrite Hl1. exact Hn.
Qed.

Lemma run_iteration_retries (env : Env) (cfg : Config) (k fuel : nat)
    (d : Z) (s : State) :
  connected s = false ->
  (forall i, i < k -> broker env (reconnects s + i) = reconnect_refused) ->
  broker env (reconnects s + k) = reconnect_ok ->
  k < fuel ->
  connected
    (state_of (run_reconnect env fuel) (state_of (run_print_job env cfg) s))
  = true /\
  trace_of (run_iteration env cfg fuel d) s
  = EvNotify "WATCHDOG=1"
    :: trace_of (run_print_job env cfg) s
    ++ retries k
    ++ EvReconnect reconnect_ok
    :: trace_of (run_poll env cfg d)
         (state_of (run_reconnect env fuel)
            (state_of (run_print_job env cfg) s)).
Proof.
  intros Hc Href Hok Hfuel.
  destruct (run_iteration_unfold env cfg fuel d s) as (_ & _ & T).
  assert (Hc1 : connected (state_of (run_print_job env cfg) s) = false).
  { rewrite (keeps_run_print_job connected env cfg); auto. }
  assert (Hr1 : reconnects (state_of (run_print_job env cfg) s) = reconnects s).
  { rewrite (keeps_run_print_job reconnects env cfg); auto. }
  destruct (run_reconnect_until_accepted env k fuel
              (state_of (run_print_job env cfg) s)) as (R & C & Tr).
  - exact Hc1.
  - intros i Hi. rewrite Hr1. apply Href. exact Hi.
  - rewrite Hr1. exact Hok.
  - exact Hfuel.
  - split; [exact C|]. rewrite T, R, Tr. rewrite <- app_assoc. reflexivity.
Qed.

Lemma run_iteration_never_accepted (env : Env) (cfg : Config) (fuel : nat)
    (d : Z) (s : State) :
  connected s = false ->
  (forall i, broker env (reconnects s + i) = reconnect_refused) ->
  run_of (run_iteration env cfg fuel d) s = OutOfFuel /\
  trace_of (run_iteration env cfg fuel d) s
  = EvNotify "WATCHDOG=1" :: trace_of (run_print_job env cfg) s ++ retries fuel.
Proof.
  intros Hc Href.
  destruct (run_iteration_unfold env cfg fuel d s) as (_ & Ro & T).
  assert (Hc1 : connected (state_of (run_print_job env cfg) s) = false).
  { rewrite (keeps_run_print_job connected env cfg); auto. }
  assert (Hr1 : reconnects (state_of (run_print_job env cfg) s) = reconnects s).
  { rewrite (keeps_run_print_job reconnects env cfg); auto. }
  destruct (run_reconnect_never_accepted env fuel
              (state_of (run_print_job env cfg) s)) as (R & Tr).
  - exact Hc1.
  - intros i. rewrite Hr1. apply Href.
  - rewrite Ro, T, R, Tr. rewrite app_nil_r. auto.
Qed.

Lemma run_loop_round (env : Env) (cfg : Config) (n fuel : nat) (d : Z)
    (s : State) :
  trace_of (run_loop env cfg (S n) fuel d) s
  = trace_of (run_iteration env cfg fuel d) s
    ++ match run_of (run_iteration env cfg fuel d) s with
       | Normal d' =>
           trace_of (run_loop env cfg n fuel d')
             (state_of (run_iteration env cfg fuel d) s)
       | _ => []
       end.
Proof.
  simpl. apply trace_of_bind.
Qed.

(** C3, as the code has it.  A round of [run] that starts connected, in
    which [mqttc.loop] reports the connection lost, and that ends
    normally, ends with [connected] false.  A round that starts not
    connected goes, after the watchdog signal and the job step, through
    the reconnection loop: [k] refused attempts, each followed by a
    sleep of one second, then the accepted attempt, which sets
    [connected], and only then the polling step; every [k] is reached
    however large, and a broker that always refuses is retried for as
    long as the model follows, the round not getting past the loop.
    Each round of the loop starts from the state the round before left.
    The same holds of the polling step and of the reconnection loop on
    their own.  The reconnection loop sends no watchdog signal: a round
    sends exactly one, as its first action, before the job step. *)
Theorem reconnect_retries (env : Env) (cfg : Config) :
  (forall fuel d s d',
      connected s = true ->
      snd (network env (loops s)) = MQTT_ERR_CONN_LOST ->
      run_of (run_iteration env cfg fuel d) s = Normal d' ->
      connected (state_of (run_iteration env cfg fuel d) s) = false) /\
  (forall k fuel d s,
      connected s = false ->
      (forall i, i < k -> broker env (reconnects s + i) = reconnect_refused) ->
      broker env (reconnects s + k) = reconnect_ok ->
      k < fuel ->
      connected
        (state_of (run_reconnect env fuel) (state_of (run_print_job env cfg) s))
      = true /\
      trace_of (run_iteration env cfg fuel d) s
      = (EvNotify "WATCHDOG=1"
         :: trace_of (run_print_job env cfg) s
         ++ retries k
         ++ EvReconnect reconnect_ok
         :: trace_of (run_poll env cfg d)
              (state_of (run_reconnect env fuel)
                 (state_of (run_print_job env cfg) s)))%list) /\
  (forall fuel d s,
      connected s = false ->
      (forall i, broker env (reconnects s + i) = reconnect_refused) ->
      run_of (run_iteration env cfg fuel d) s = OutOfFuel /\
      trace_of (run_iteration env cfg fuel d) s
      = (EvNotify "WATCHDOG=1"
         :: trace_of (run_print_job env cfg) s ++ retries fuel)%list) /\
  (forall n fuel d s,
      trace_of (run_loop env cfg (S n) fuel d) s
      = (trace_of (run_iteration env cfg fuel d) s
         ++ match run_of (run_iteration env cfg fuel d) s with
            | Normal d' =>
                trace_of (run_loop env cfg n fuel d')
                  (state_of (run_iteration env cfg fuel d) s)
            | _ => []
            end)%list) /\
  (forall d s d',
      connected s = true ->
      snd (network env (loops s)) = MQTT_ERR_CONN_LOST ->
      run_of (run_poll env cfg d) s = Normal d' ->
      connected (state_of (run_poll env cfg d) s) = false) /\
  (forall k fuel s,
      connected s = false ->
      (forall i, i < k -> broker env (reconnects s + i) = reconnect_refused) ->
      broker env (reconnects s + k) = reconnect_ok ->
      k < fuel ->
      run_of (run_reconnect env fuel) s = Normal tt /\
      connected (state_of (run_reconnect env fuel) s) = true /\
      trace_of (run_reconnect env fuel) s
      = (retries k ++ [EvReconnect reconnect_ok])%list) /\
  (forall fuel s,
      connected s = false ->
      (forall i, broker env (reconnects s + i) = reconnect_refused) ->
      run_of (run_reconnect env fuel) s = OutOfFuel /\
      trace_of (run_reconnect env fuel) s = retries fuel) /\
  (forall fuel s, notifications (trace_of (run_reconnect env fuel) s) = 0) /\
  (forall fuel d s,
      notifications (trace_of (run_iteration env cfg fuel d) s) = 1 /\
      exists rest,
        trace_of (run_iteration env cfg fuel d) s
        = EvNotify "WATCHDOG=1" :: rest).
Proof.
  split; [|split; [|split; [|split; [|split; [|split; [|split; [|split]]]]]]].
  - intros fuel d s d'. apply run_iteration_connection_lost.
  - intros k fuel d s. apply run_iteration_retries.
  - intros fuel d s. apply run_iteration_never_accepted.
  - intros n fuel d s. apply run_loop_round.
  - intros d s d'. apply run_poll_connection_lost.
  - apply run_reconnect_until_accepted.
  - apply run_reconnect_never_accepted.
  - intros fuel s. apply quiet_run_reconnect.
  - intros fuel d s. apply run_iteration_watchdog.
Qed.

Lemma reconnect_retries_witness :
  (connected init = false /\
   (forall i, i < 2 ->
      broker env_refusing (reconnects init + i) = reconnect_refused) /\
   broker env_refusing (reconnects init + 2) = reconnect_ok /\
   2 < 3 /\
   connected
     (state_of (run_reconnect env_refusing 3)
        (state_of (run_print_job env_refusing shop_cfg) init)) = true /\
   trace_of (run_iteration env_refusing shop_cfg 3 0) init
   = (EvNotify "WATCHDOG=1"
      :: trace_of (run_print_job env_refusing shop_cfg) init
      ++ retries 2
      ++ EvReconnect reconnect_ok
      :: trace_of (run_poll env_refusing shop_cfg 0)
           (state_of (run_reconnect env_refusing 3)
              (state_of (run_print_job env_refusing shop_cfg) init)))%list) /\
  (connected connected_init = true /\
   snd (network env_conn_lost (loops connected_init)) = MQTT_ERR_CONN_LOST /\
   run_of (run_iteration env_conn_lost shop_cfg 3 0) connected_init
   = Normal 5000%Z /\
   connected
     (state_of (run_iteration env_conn_lost shop_cfg 3 0) connected_init)
   = false).
Proof.
  assert (H2 : forall i, i < 2 ->
             broker env_refusing (reconnects init + i) = reconnect_refused).
  { intros i Hi. destruct i as [|[|i]]; [reflexivity|reflexivity|lia]. }
  split.
  - split; [reflexivity|]. split; [exact H2|]. split; [reflexivity|].
    split; [lia|].
    apply (proj1 (proj2 (reconnect_retries env_refusing shop_cfg))
             2 3 0%Z init eq_refl H2 eq_refl). lia.
  - split; [reflexivity|]. split; [reflexivity|]. split; [reflexivity|].
    apply (proj1 (reconnect_retries env_conn_lost shop_cfg)
             3 0%Z connected_init 5000%Z eq_refl eq_refl eq_refl).
Defined.

(** C3, as stated, fails: in a round whose first reconnect attempt is
    refused, no watchdog signal lies between that attempt and the next. *)
Lemma watchdog_skipped_during_retries :
  watchdog_between_attempts
    (trace_of (run_iteration env_refusing shop_cfg 5 0) init) = false /\
  firstn 6 (trace_of (run_iteration env_refusing shop_cfg 5 0) init)
  = [EvNotify "WATCHDOG=1";
     EvReconnect reconnect_refused; EvSleep 1000;
     EvReconnect reconnect_refused; EvSleep 1000;
     EvReconnect reconnect_ok].
Proof.
  split; reflexivity.
Qed.


(** The connection is lost in the first round; the second round
    reconnects before it polls. *)
Example run_reconnects_next_round :
  filter is_reconnect (trace_of (run env_conn_lost shop_cfg 1 3) connected_init)
  = [] /\
  connected (state_of (run env_conn_lost shop_cfg 1 3) connected_init) = false /\
  filter is_reconnect (trace_of (run env_conn_lost shop_cfg 2 3) connected_init)
  = [EvReconnect reconnect_ok] /\
  connected (state_of (run env_conn_lost shop_cfg 2 3) connected_init) = true.
Proof. repeat split. Qed.
